(** * Compliance dashboard API: filter compiler, due-status classifier and
      lifecycle updates of [main.py], embedded and verified.

    The relational store is a pair of row lists, SQL text is kept as the
    sequence of fragments the Python code appends, bound parameters are a
    positional list, and SQL conditions are evaluated in three-valued logic. *)

From Stdlib Require Import ZArith List String Ascii Bool Lia DecimalString Sorted.
Import ListNotations.
Local Open Scope string_scope.
Local Open Scope list_scope.
Local Open Scope Z_scope.

Set Implicit Arguments.

(* ------------------------------------------------------------------ *)
(** ** Exceptions and results *)

Inductive exn : Type :=
| ValueError (msg : string)               (* raised by date_like / fromisoformat *)
| TypeError                               (* fromisoformat: argument must be str *)
| OverflowError                           (* date + timedelta out of range *)
| RequestValidationError (field : string) (* pydantic rejects the body: HTTP 422 *)
| HTTPException (status_code : Z) (detail : string)
| ProgrammingError.                       (* sqlite3: wrong number of bindings *)

Inductive result (A : Type) : Type :=
| Ok (a : A)
| Raise (e : exn).
Arguments Ok {A} a.
Arguments Raise {A} e.

Definition bind {A B} (r : result A) (k : A -> result B) : result B :=
  match r with
  | Ok a => k a
  | Raise e => Raise e
  end.

Notation "x <- r ;; k" := (bind r (fun x => k))
  (at level 61, r at next level, right associativity).
Notation "' p <- r ;; k" := (bind r (fun p => k))
  (at level 61, p pattern, r at next level, right associativity).



(* ------------------------------------------------------------------ *)
(** ** Python values and truthiness *)

(** Values a decoded JSON member can have before validation. *)
Inductive pyval : Type :=
| PNone
| PStr (s : string)
| PInt (z : Z)
| PBool (b : bool).

Definition str_truthy (s : string) : bool :=
  match s with EmptyString => false | _ => true end.

(** Truth value of a Python object in a condition. *)
Definition truthy (v : pyval) : bool :=
  match v with
  | PNone => false
  | PStr s => str_truthy s
  | PInt z => negb (z =? 0)
  | PBool b => b
  end.

(** [filters.get(k)] used as a condition, for a string-valued entry. *)
Definition opt_str_truthy (o : option string) : bool :=
  match o with Some s => str_truthy s | None => false end.

(** [filters.get(k)] used as a condition, for an int-valued entry. *)
Definition opt_int_truthy (o : option Z) : bool :=
  match o with Some z => negb (z =? 0) | None => false end.

(** [v or None] for a string [v]. *)
Definition or_none (v : string) : option string :=
  if str_truthy v then Some v else None.

(* ------------------------------------------------------------------ *)
(** ** Dates

    A [date] is represented by its proleptic Gregorian ordinal
    ([date.toordinal()]); comparison of dates and [date + timedelta] are
    comparison and addition of ordinals. *)

Definition date := Z.

Definition MINYEAR := 1.
Definition MAXYEAR := 9999.
Definition MAXORDINAL := 3652059.   (* date(9999, 12, 31).toordinal() *)

Definition is_leap (y : Z) : bool :=
  (y mod 4 =? 0) && (negb (y mod 100 =? 0) || (y mod 400 =? 0)).

Definition days_before_year (year : Z) : Z :=
  let y := year - 1 in
  y * 365 + y / 4 - y / 100 + y / 400.

Definition days_in_month (year month : Z) : Z :=
  if (month =? 2) && is_leap year then 29
  else nth (Z.to_nat month) [0; 31; 28; 31; 30; 31; 30; 31; 31; 30; 31; 30; 31] 0.

Definition DAYS_BEFORE_MONTH : list Z :=
  [0; 0; 31; 59; 90; 120; 151; 181; 212; 243; 273; 304; 334].

Definition days_before_month (year month : Z) : Z :=
  nth (Z.to_nat month) DAYS_BEFORE_MONTH 0
  + (if (2 <? month) && is_leap year then 1 else 0).

Definition ymd2ord (year month day : Z) : Z :=
  days_before_year year + days_before_month year month + day.

Definition ord2ymd (n0 : Z) : Z * Z * Z :=
  let n := n0 - 1 in
  let n400 := n / 146097 in let n := n mod 146097 in
  let year := n400 * 400 + 1 in
  let n100 := n / 36524 in let n := n mod 36524 in
  let n4 := n / 1461 in let n := n mod 1461 in
  let n1 := n / 365 in let n := n mod 365 in
  let year := year + n100 * 100 + n4 * 4 + n1 in
  if (n1 =? 4) || (n100 =? 4) then (year - 1, 12, 31)
  else
    let leapyear := (n1 =? 3) && (negb (n4 =? 24) || (n100 =? 3)) in
    let month := Z.shiftr (n + 50) 5 in
    let preceding :=
      nth (Z.to_nat month) DAYS_BEFORE_MONTH 0
      + (if (2 <? month) && leapyear then 1 else 0) in
    if n <? preceding then
      let month' := month - 1 in
      let dim :=
        nth (Z.to_nat month') [0; 31; 28; 31; 30; 31; 30; 31; 31; 30; 31; 30; 31] 0
        + (if (month' =? 2) && leapyear then 1 else 0) in
      (year, month', n - (preceding - dim) + 1)
    else (year, month, n - preceding + 1).

(** Decimal digits. *)
Definition digit_val (c : ascii) : option Z :=
  let n := Z.of_nat (nat_of_ascii c) in
  if (48 <=? n) && (n <=? 57) then Some (n - 48) else None.

Fixpoint digits_val (acc : Z) (s : string) : option Z :=
  match s with
  | EmptyString => Some acc
  | String c s' =>
      match digit_val c with
      | Some d => digits_val (acc * 10 + d) s'
      | None => None
      end
  end.

Definition digit_char (d : Z) : ascii := ascii_of_nat (Z.to_nat (48 + d mod 10)).

Definition pad2 (n : Z) : string :=
  String (digit_char (n / 10)) (String (digit_char n) EmptyString).

Definition pad4 (n : Z) : string :=
  String (digit_char (n / 1000)) (String (digit_char (n / 100)) (pad2 n)).

Definition dash : ascii := "-"%char.

(** [date.fromisoformat] on the [YYYY-MM-DD] format. *)
Definition fromisoformat (s : string) : result date :=
  let bad := Raise (ValueError "Invalid isoformat string") in
  if negb (Nat.eqb (String.length s) 10) then bad
  else
    match String.get 4 s, String.get 7 s with
    | Some c4, Some c7 =>
        if negb (Ascii.eqb c4 dash && Ascii.eqb c7 dash) then bad
        else
          match digits_val 0 (substring 0 4 s),
                digits_val 0 (substring 5 2 s),
                digits_val 0 (substring 8 2 s) with
          | Some y, Some m, Some d =>
              if (MINYEAR <=? y) && (y <=? MAXYEAR)
                 && (1 <=? m) && (m <=? 12)
                 && (1 <=? d) && (d <=? days_in_month y m)
              then Ok (ymd2ord y m d)
              else Raise (ValueError "date value out of range")
          | _, _, _ => bad
          end
    | _, _ => bad
    end.

(** [date.isoformat()]. *)
Definition isoformat (d : date) : string :=
  let '(y, m, dd) := ord2ymd d in
  (pad4 y ++ "-" ++ pad2 m ++ "-" ++ pad2 dd)%string.

(** [d + timedelta(days=n)]. *)
Definition date_add_days (d : date) (n : Z) : result date :=
  if (1 <=? d + n) && (d + n <=? MAXORDINAL) then Ok (d + n)
  else Raise OverflowError.

(* ------------------------------------------------------------------ *)
(** ** classify_site_status *)

(** [today] is the value of [date.today()] at the call. *)
Definition classify_site_status (today : date)
    (min_next_due : pyval) (has_overdue : bool) : result string :=
  if has_overdue then Ok "DUE"
  else if negb (truthy min_next_due) then Ok "OK"
  else
    nd <- match min_next_due with
          | PStr s => fromisoformat s
          | _ => Raise TypeError
          end ;;
    if nd <? today then Ok "DUE"
    else
      lim <- date_add_days today 30 ;;
      if nd <=? lim then Ok "DUE_SOON"
      else Ok "OK".

(* ------------------------------------------------------------------ *)
(** ** SQL values, three-valued logic and comparison *)

Inductive sqlval : Type :=
| VNull
| VInt (z : Z)
| VText (s : string).

(** Truth value of an SQL condition; [None] is NULL (unknown). *)
Definition tri := option bool.

Definition tri_and (a b : tri) : tri :=
  match a, b with
  | Some false, _ | _, Some false => Some false
  | Some true, Some true => Some true
  | _, _ => None
  end.

Definition tri_or (a b : tri) : tri :=
  match a, b with
  | Some true, _ | _, Some true => Some true
  | Some false, Some false => Some false
  | _, _ => None
  end.

(** A WHERE clause keeps a row only when its condition is true. *)
Definition is_true (t : tri) : bool :=
  match t with Some true => true | _ => false end.

Definition is_null (v : sqlval) : bool :=
  match v with VNull => true | _ => false end.

(** Ordering of stored values: integers sort before text, text is compared
    bytewise (BINARY collation). *)
Definition sql_compare (a b : sqlval) : option comparison :=
  match a, b with
  | VNull, _ | _, VNull => None
  | VInt x, VInt y => Some (x ?= y)
  | VInt _, VText _ => Some Lt
  | VText _, VInt _ => Some Gt
  | VText x, VText y => Some (String.compare x y)
  end.

Definition sql_eq (a b : sqlval) : tri :=
  option_map (fun c => match c with Eq => true | _ => false end) (sql_compare a b).

Definition sql_lt (a b : sqlval) : tri :=
  option_map (fun c => match c with Lt => true | _ => false end) (sql_compare a b).

Definition sql_le (a b : sqlval) : tri :=
  option_map (fun c => match c with Gt => false | _ => true end) (sql_compare a b).

(** [x BETWEEN lo AND hi] is [x >= lo AND x <= hi]. *)
Definition sql_between (x lo hi : sqlval) : tri :=
  tri_and (sql_le lo x) (sql_le x hi).

(** ASCII case folding, as done by SQL LOWER() and, on ASCII text, by
    Python's [str.lower]. *)
Definition lower_char (c : ascii) : ascii :=
  let n := nat_of_ascii c in
  if (Nat.leb 65 n && Nat.leb n 90)%bool then ascii_of_nat (n + 32) else c.

Fixpoint lower (s : string) : string :=
  match s with
  | EmptyString => EmptyString
  | String c s' => String (lower_char c) (lower s')
  end.

(** Text form of a value where an operator needs text. *)
Definition sql_text (v : sqlval) : option string :=
  match v with
  | VNull => None
  | VInt z => Some (NilZero.string_of_int (Z.to_int z))
  | VText s => Some s
  end.

Definition sql_lower (v : sqlval) : sqlval :=
  match sql_text v with
  | Some s => VText (lower s)
  | None => VNull
  end.

(** The LIKE operator: [%] matches any run of characters, [_] exactly one,
    letters compare without regard to ASCII case. *)
Fixpoint like_match (pat : string) : string -> bool :=
  match pat with
  | EmptyString => fun s => match s with EmptyString => true | _ => false end
  | String p pat' =>
      if Ascii.eqb p "%"%char then
        fix any (s : string) : bool :=
          like_match pat' s
          || match s with EmptyString => false | String _ s' => any s' end
      else if Ascii.eqb p "_"%char then
        fun s => match s with EmptyString => false | String _ s' => like_match pat' s' end
      else
        fun s =>
          match s with
          | EmptyString => false
          | String c s' => Ascii.eqb (lower_char p) (lower_char c) && like_match pat' s'
          end
  end.

Definition sql_like (x pat : sqlval) : tri :=
  match sql_text x, sql_text pat with
  | Some s, Some p => Some (like_match p s)
  | _, _ => None
  end.

(* ------------------------------------------------------------------ *)
(** ** The store *)

Record site_row : Type := {
  site_id : string;
  name : sqlval;
  uprn : sqlval;
  site_code : sqlval;
  status : sqlval;
  site_type_code : sqlval;
  updated_at : sqlval
}.

Record ppm_row : Type := {
  ppm_plan_id : Z;
  ppm_site_id : string;
  category_id : sqlval;
  priority : sqlval;
  instruction : sqlval;
  frequency_months : sqlval;
  finished_date : sqlval;
  next_due_date : sqlval;
  is_active : sqlval;
  retired_at : sqlval;
  retired_reason : sqlval;
  suspended_until : sqlval
}.

Record db : Type := {
  site : list site_row;
  ppm_plan : list ppm_row
}.

(** What the store reads from the wall clock inside a statement:
    [date('now')] as an ordinal and CURRENT_TIMESTAMP as text. *)
Record sql_clock : Type := {
  date_now : date;
  current_timestamp : string
}.

(** [date('now', '+n days')]. *)
Definition sql_date (clk : sql_clock) (n : Z) : sqlval :=
  VText (isoformat (date_now clk + n)).

(** Row condition of the view:
    [p.is_active = 1 AND (p.suspended_until IS NULL
                          OR p.suspended_until <= date('now'))]. *)
Definition in_force (clk : sql_clock) (p : ppm_row) : tri :=
  tri_and (sql_eq (is_active p) (VInt 1))
          (tri_or (Some (is_null (suspended_until p)))
                  (sql_le (suspended_until p) (sql_date clk 0))).

Definition view_active_ppm (clk : sql_clock) (d : db) : list ppm_row :=
  filter (fun p => is_true (in_force clk p)) (ppm_plan d).

(* ------------------------------------------------------------------ *)
(** ** build_where

    The WHERE text is kept as the list of fragments appended after
    [" WHERE 1=1 "]; every [?] of a fragment takes the next bound parameter. *)

Inductive plan_frag : Type :=
| AndCategory     (* " AND ap.category_id = ?" *)
| AndPriority     (* " AND ap.priority = ?" *)
| AndOverdue      (* " AND ap.next_due_date IS NOT NULL AND ap.next_due_date < date('now')" *)
| AndSoon         (* " AND ap.next_due_date BETWEEN date('now') AND date('now','+30 days')" *)
| AndQuarter.     (* " AND ap.next_due_date BETWEEN date('now') AND date('now','+90 days')" *)

Inductive site_frag : Type :=
| AndStatus       (* " AND s.status = ?" *)
| AndSiteType     (* " AND s.site_type_code = ?" *)
| AndLike         (* " AND (LOWER(s.name) LIKE ? OR LOWER(s.site_code) LIKE ? OR LOWER(s.uprn) LIKE ?)" *)
| AndExists (body : list plan_frag).
                  (* " AND  EXISTS (SELECT 1 FROM view_active_ppm ap
                               WHERE ap.site_id=s.site_id " ... " ) " *)

Definition plan_frag_sql (f : plan_frag) : string :=
  match f with
  | AndCategory => " AND ap.category_id = ?"
  | AndPriority => " AND ap.priority = ?"
  | AndOverdue => " AND ap.next_due_date IS NOT NULL AND ap.next_due_date < date('now')"
  | AndSoon => " AND ap.next_due_date BETWEEN date('now') AND date('now','+30 days')"
  | AndQuarter => " AND ap.next_due_date BETWEEN date('now') AND date('now','+90 days')"
  end.

Definition site_frag_sql (f : site_frag) : string :=
  match f with
  | AndStatus => " AND s.status = ?"
  | AndSiteType => " AND s.site_type_code = ?"
  | AndLike =>
      " AND (LOWER(s.name) LIKE ? OR LOWER(s.site_code) LIKE ? OR LOWER(s.uprn) LIKE ?)"
  | AndExists body =>
      (" AND  EXISTS (SELECT 1 FROM view_active_ppm ap WHERE ap.site_id=s.site_id "
       ++ String.concat "" (map plan_frag_sql body) ++ " ) ")%string
  end.

Definition where_sql (w : list site_frag) : string :=
  (" WHERE 1=1 " ++ String.concat "" (map site_frag_sql w))%string.

(** The [filters] dict; [None] is a missing key or a [None] value. *)
Record filters : Type := {
  f_q : option string;
  f_status : option string;
  f_site_type : option string;
  f_category_id : option Z;
  f_priority : option string;
  f_due_window : option string
}.

(** [filters.get(k)] when it is truthy. *)
Definition get_str (o : option string) : option string :=
  match o with
  | Some s => if str_truthy s then Some s else None
  | None => None
  end.

Definition get_int (o : option Z) : option Z :=
  match o with
  | Some z => if z =? 0 then None else Some z
  | None => None
  end.

(** [filters.get("due_window", "all")]. *)
Definition get_due_window (o : option string) : string :=
  match o with Some s => s | None => "all" end.

Definition build_exists (f : filters) (params : list sqlval)
    : list plan_frag * list sqlval :=
  let ex := [] in
  let '(ex, params) :=
    match get_int (f_category_id f) with
    | Some c => (ex ++ [AndCategory], params ++ [VInt c])
    | None => (ex, params)
    end in
  let '(ex, params) :=
    match get_str (f_priority f) with
    | Some p => (ex ++ [AndPriority], params ++ [VText p])
    | None => (ex, params)
    end in
  let dw := get_due_window (f_due_window f) in
  let ex :=
    if String.eqb dw "overdue" then ex ++ [AndOverdue]
    else if String.eqb dw "soon" then ex ++ [AndSoon]
    else if String.eqb dw "quarter" then ex ++ [AndQuarter]
    else ex in
  (ex, params).

Definition build_where (f : filters) (params : list sqlval)
    : list site_frag * list sqlval :=
  let w := [] in
  let '(w, params) :=
    match get_str (f_status f) with
    | Some s => (w ++ [AndStatus], params ++ [VText s])
    | None => (w, params)
    end in
  let '(w, params) :=
    match get_str (f_site_type f) with
    | Some t => (w ++ [AndSiteType], params ++ [VText t])
    | None => (w, params)
    end in
  let '(w, params) :=
    match get_str (f_q f) with
    | Some q =>
        let like := VText ("%" ++ lower q ++ "%")%string in
        (w ++ [AndLike], params ++ [like; like; like])
    | None => (w, params)
    end in
  if opt_int_truthy (f_category_id f) || opt_str_truthy (f_priority f)
     || opt_str_truthy (f_due_window f)
  then
    let '(ex, params) := build_exists f params in
    (w ++ [AndExists ex], params)
  else (w, params).

(* ------------------------------------------------------------------ *)
(** ** Binding parameters and evaluating the WHERE clause *)

Inductive plan_cond : Type :=
| CategoryEq (v : sqlval)
| PriorityEq (v : sqlval)
| Overdue
| Soon
| Quarter.

Inductive site_cond : Type :=
| StatusEq (v : sqlval)
| SiteTypeEq (v : sqlval)
| Like3 (v1 v2 v3 : sqlval)
| Exists (body : list plan_cond).

Fixpoint bind_plan (fs : list plan_frag) (ps : list sqlval)
    : result (list plan_cond * list sqlval) :=
  match fs with
  | [] => Ok ([], ps)
  | f :: fs' =>
      match f, ps with
      | AndCategory, v :: ps' =>
          ' (cs, rest) <- bind_plan fs' ps' ;; Ok (CategoryEq v :: cs, rest)
      | AndPriority, v :: ps' =>
          ' (cs, rest) <- bind_plan fs' ps' ;; Ok (PriorityEq v :: cs, rest)
      | AndOverdue, _ =>
          ' (cs, rest) <- bind_plan fs' ps ;; Ok (Overdue :: cs, rest)
      | AndSoon, _ =>
          ' (cs, rest) <- bind_plan fs' ps ;; Ok (Soon :: cs, rest)
      | AndQuarter, _ =>
          ' (cs, rest) <- bind_plan fs' ps ;; Ok (Quarter :: cs, rest)
      | _, [] => Raise ProgrammingError
      end
  end.

Fixpoint bind_where (w : list site_frag) (ps : list sqlval)
    : result (list site_cond * list sqlval) :=
  match w with
  | [] => Ok ([], ps)
  | f :: w' =>
      match f, ps with
      | AndStatus, v :: ps' =>
          ' (cs, rest) <- bind_where w' ps' ;; Ok (StatusEq v :: cs, rest)
      | AndSiteType, v :: ps' =>
          ' (cs, rest) <- bind_where w' ps' ;; Ok (SiteTypeEq v :: cs, rest)
      | AndLike, v1 :: v2 :: v3 :: ps' =>
          ' (cs, rest) <- bind_where w' ps' ;; Ok (Like3 v1 v2 v3 :: cs, rest)
      | AndExists body, _ =>
          ' (ex, ps') <- bind_plan body ps ;;
          ' (cs, rest) <- bind_where w' ps' ;; Ok (Exists ex :: cs, rest)
      | _, _ => Raise ProgrammingError
      end
  end.

Definition eval_plan_cond (clk : sql_clock) (ap : ppm_row) (c : plan_cond) : tri :=
  match c with
  | CategoryEq v => sql_eq (category_id ap) v
  | PriorityEq v => sql_eq (priority ap) v
  | Overdue =>
      tri_and (Some (negb (is_null (next_due_date ap))))
              (sql_lt (next_due_date ap) (sql_date clk 0))
  | Soon => sql_between (next_due_date ap) (sql_date clk 0) (sql_date clk 30)
  | Quarter => sql_between (next_due_date ap) (sql_date clk 0) (sql_date clk 90)
  end.

(** Conjunction of a seed condition with a list of conditions, left to right. *)
Definition conj_all {C : Type} (ev : C -> tri) (seed : tri) (cs : list C) : tri :=
  fold_left (fun acc c => tri_and acc (ev c)) cs seed.

(** WHERE of the subquery: [ap.site_id=s.site_id] and the plan conditions. *)
Definition exists_row (clk : sql_clock) (s : site_row) (body : list plan_cond)
    (ap : ppm_row) : tri :=
  conj_all (eval_plan_cond clk ap)
           (Some (String.eqb (ppm_site_id ap) (site_id s))) body.

Definition eval_site_cond (clk : sql_clock) (d : db) (s : site_row)
    (c : site_cond) : tri :=
  match c with
  | StatusEq v => sql_eq (status s) v
  | SiteTypeEq v => sql_eq (site_type_code s) v
  | Like3 v1 v2 v3 =>
      tri_or (tri_or (sql_like (sql_lower (name s)) v1)
                     (sql_like (sql_lower (site_code s)) v2))
             (sql_like (sql_lower (uprn s)) v3)
  | Exists body =>
      Some (existsb (fun ap => is_true (exists_row clk s body ap))
                    (view_active_ppm clk d))
  end.

(** [WHERE 1=1 AND c1 AND c2 ...] on one site row. *)
Definition eval_where (clk : sql_clock) (d : db) (cs : list site_cond)
    (s : site_row) : tri :=
  conj_all (eval_site_cond clk d s) (Some true) cs.

(** [FROM site s WHERE ...]: the rows the clause keeps, in table order. *)
Definition where_rows (clk : sql_clock) (d : db) (cs : list site_cond)
    : list site_row :=
  filter (fun s => is_true (eval_where clk d cs s)) (site d).

(* ------------------------------------------------------------------ *)
(** ** The site listing query and api_sites *)

(** ORDER BY collation on values: NULL first, then integers, then text. *)
Definition order_le (a b : sqlval) : bool :=
  match a, b with
  | VNull, _ => true
  | _, VNull => false
  | _, _ => is_true (sql_le a b)
  end.

Fixpoint insert_by_name (s : site_row) (l : list site_row) : list site_row :=
  match l with
  | [] => [s]
  | t :: l' =>
      if order_le (name t) (name s) then t :: insert_by_name s l'
      else s :: t :: l'
  end.

(** [ORDER BY s.name]; rows of equal name keep their table order. *)
Definition order_by_name (l : list site_row) : list site_row :=
  fold_left (fun acc s => insert_by_name s acc) l [].

(** [LIMIT n]: a negative [n] is no limit. *)
Definition sql_limit {A : Type} (n : Z) (l : list A) : list A :=
  if n <? 0 then l else firstn (Z.to_nat n) l.

(** Rows of the view that belong to one site. *)
Definition active_of (clk : sql_clock) (d : db) (s : site_row) : list ppm_row :=
  filter (fun p => String.eqb (ppm_site_id p) (site_id s)) (view_active_ppm clk d).

(** [MIN(x)]: least non-NULL value, NULL when there is none. *)
Definition sql_min (vs : list sqlval) : sqlval :=
  fold_left (fun acc v =>
               match acc, v with
               | _, VNull => acc
               | VNull, _ => v
               | _, _ => if is_true (sql_lt v acc) then v else acc
               end) vs VNull.

(** [next_due_date IS NOT NULL AND next_due_date < date('now')]. *)
Definition overdue_row (clk : sql_clock) (p : ppm_row) : bool :=
  is_true (tri_and (Some (negb (is_null (next_due_date p))))
                   (sql_lt (next_due_date p) (sql_date clk 0))).

(** [SUM(CASE WHEN ... THEN 1 ELSE 0 END)]: NULL over no rows. *)
Definition sql_sum_overdue (clk : sql_clock) (ps : list ppm_row) : sqlval :=
  match ps with
  | [] => VNull
  | _ => VInt (Z.of_nat (List.length (filter (overdue_row clk) ps)))
  end.

Definition py_of_sql (v : sqlval) : pyval :=
  match v with
  | VNull => PNone
  | VInt z => PInt z
  | VText s => PStr s
  end.

(** [x or None]. *)
Definition py_or_none (v : pyval) : pyval :=
  if truthy v then v else PNone.

(** [int(x or 0)] for an integer or NULL column. *)
Definition int_or_zero (v : sqlval) : Z :=
  match v with
  | VInt z => z
  | _ => 0
  end.

(** One element of the JSON answer. *)
Record site_summary : Type := {
  sum_site : site_row;
  min_next_due : pyval;
  overdue_count : Z;
  active_ppm : Z;
  ui_status : string
}.

Inductive due_window_lit : Type := DwAll | DwOverdue | DwSoon | DwQuarter.

Definition due_window_str (w : due_window_lit) : string :=
  match w with
  | DwAll => "all"
  | DwOverdue => "overdue"
  | DwSoon => "soon"
  | DwQuarter => "quarter"
  end.

(** Query parameters of [/api/sites] and [/api/export/sites.csv]. *)
Record sites_query : Type := {
  arg_q : option string;
  arg_status : option string;
  arg_site_type : option string;
  arg_category_id : option Z;
  arg_priority : option string;
  arg_due_window : due_window_lit;
  arg_limit : Z
}.

Definition is_space (c : ascii) : bool :=
  let n := nat_of_ascii c in
  (Nat.leb 9 n && Nat.leb n 13) || (Nat.leb 28 n && Nat.leb n 32).

Fixpoint lstrip (s : string) : string :=
  match s with
  | String c s' => if is_space c then lstrip s' else s
  | EmptyString => EmptyString
  end.

Fixpoint rstrip (s : string) : string :=
  match s with
  | EmptyString => EmptyString
  | String c s' =>
      match rstrip s' with
      | EmptyString => if is_space c then EmptyString else String c EmptyString
      | r => String c r
      end
  end.

(** [(x or "").strip()]. *)
Definition or_empty_strip (o : option string) : string :=
  rstrip (lstrip (match o with Some s => s | None => "" end)).

Definition filters_of (a : sites_query) : filters :=
  {| f_q := Some (or_empty_strip (arg_q a));
     f_status := Some (or_empty_strip (arg_status a));
     f_site_type := Some (or_empty_strip (arg_site_type a));
     f_category_id := arg_category_id a;
     f_priority := Some (or_empty_strip (arg_priority a));
     f_due_window := Some (due_window_str (arg_due_window a)) |}.

(** Executing the listing statement with its bound parameters: the WHERE
    fragments take theirs in order, [LIMIT ?] takes the last one. *)
Definition select_sites (clk : sql_clock) (d : db)
    (w : list site_frag) (params : list sqlval) : result (list site_row) :=
  ' (cs, rest) <- bind_where w params ;;
  match rest with
  | [VInt n] => Ok (sql_limit n (order_by_name (where_rows clk d cs)))
  | _ => Raise ProgrammingError
  end.

Definition summarise (today : date) (clk : sql_clock) (d : db) (s : site_row)
    : result site_summary :=
  let ps := active_of clk d s in
  let m := py_or_none (py_of_sql (sql_min (map next_due_date ps))) in
  let oc := int_or_zero (sql_sum_overdue clk ps) in
  let ap := Z.of_nat (List.length ps) in
  ui <- classify_site_status today m (0 <? oc) ;;
  Ok {| sum_site := s; min_next_due := m; overdue_count := oc;
        active_ppm := ap; ui_status := ui |}.

Fixpoint map_result {A B : Type} (f : A -> result B) (l : list A)
    : result (list B) :=
  match l with
  | [] => Ok []
  | a :: l' => b <- f a ;; bs <- map_result f l' ;; Ok (b :: bs)
  end.

Definition api_sites (today : date) (clk : sql_clock) (d : db)
    (a : sites_query) : result (list site_summary) :=
  let '(w, params) := build_where (filters_of a) [] in
  let params := params ++ [VInt (arg_limit a)] in
  rows <- select_sites clk d w params ;;
  map_result (summarise today clk d) rows.

(** The export runs the same statement and serialises its rows. *)
Definition api_export_sites_rows (clk : sql_clock) (d : db)
    (a : sites_query) : result (list site_row) :=
  let '(w, params) := build_where (filters_of a) [] in
  select_sites clk d w (params ++ [VInt (arg_limit a)]).

(* ------------------------------------------------------------------ *)
(** ** Request models *)

(** The decoded JSON body of a plan update; [None] is a missing key (and,
    for [is_active] and [retired_reason], also a JSON null). *)
Record ppm_update_json : Type := {
  j_finished_date : option pyval;
  j_next_due_date : option pyval;
  j_is_active : option bool;
  j_retired_reason : option string;
  j_retired_at : option pyval;
  j_suspended_until : option pyval
}.

Module PpmUpdate.

(** The validated model the handler receives. *)
Record t : Type := {
  finished_date : option string;
  next_due_date : option string;
  is_active : option bool;
  retired_reason : option string;
  retired_at : option string;
  suspended_until : option string
}.

(** The shape test of the validator. *)
Definition date_shaped (v : string) : bool :=
  Nat.eqb (String.length v) 10
  && match String.get 4 v with Some c => Ascii.eqb c dash | None => false end
  && match String.get 7 v with Some c => Ascii.eqb c dash | None => false end.

(** The [date_like] field validator (mode "before"). *)
Definition date_like (v : pyval) : result (option string) :=
  match v with
  | PNone => Ok None
  | PStr s =>
      if negb (str_truthy s) then Ok None
      else if date_shaped s then Ok (Some s)
      else Raise (ValueError "Dates must be YYYY-MM-DD")
  | _ => Raise (ValueError "Dates must be YYYY-MM-DD")
  end.

(** Validation of one date-like member: a missing key keeps the default
    [None]; a [ValueError] of the validator becomes a 422 answer. *)
Definition validate_date (field : string) (o : option pyval)
    : result (option string) :=
  match o with
  | None => Ok None
  | Some v =>
      match date_like v with
      | Ok r => Ok r
      | Raise _ => Raise (RequestValidationError field)
      end
  end.

Definition validate (j : ppm_update_json) : result t :=
  fd <- validate_date "finished_date" (j_finished_date j) ;;
  nd <- validate_date "next_due_date" (j_next_due_date j) ;;
  ra <- validate_date "retired_at" (j_retired_at j) ;;
  su <- validate_date "suspended_until" (j_suspended_until j) ;;
  Ok {| finished_date := fd; next_due_date := nd;
        is_active := j_is_active j; retired_reason := j_retired_reason j;
        retired_at := ra; suspended_until := su |}.

End PpmUpdate.

Module SiteUpdate.

Definition statuses : list string :=
  ["Active"; "Closed"; "Suspended"; "Under-Construction"; "Unknown"].

Record t : Type := { status : string }.

(** [status] is required and must be one of the five literals. *)
Definition validate (j : option pyval) : result t :=
  match j with
  | Some (PStr s) =>
      if existsb (String.eqb s) statuses then Ok {| status := s |}
      else Raise (RequestValidationError "status")
  | _ => Raise (RequestValidationError "status")
  end.

End SiteUpdate.

(* ------------------------------------------------------------------ *)
(** ** UPDATE ppm_plan *)

Inductive column : Type :=
| c_finished_date | c_next_due_date | c_retired_reason
| c_suspended_until | c_is_active | c_retired_at.

(** One element of [fields]. *)
Inductive set_frag : Type :=
| SetParam (c : column)     (* "<c> = ?" *)
| SetDateNow (c : column)   (* "<c> = date('now')" *)
| SetNull (c : column).     (* "<c> = NULL" *)

Definition set_col (c : column) (v : sqlval) (r : ppm_row) : ppm_row :=
  let mk fd nd ia ra rr su :=
    {| ppm_plan_id := ppm_plan_id r; ppm_site_id := ppm_site_id r;
       category_id := category_id r; priority := priority r;
       instruction := instruction r; frequency_months := frequency_months r;
       finished_date := fd; next_due_date := nd; is_active := ia;
       retired_at := ra; retired_reason := rr; suspended_until := su |} in
  match c with
  | c_finished_date =>
      mk v (next_due_date r) (is_active r) (retired_at r) (retired_reason r) (suspended_until r)
  | c_next_due_date =>
      mk (finished_date r) v (is_active r) (retired_at r) (retired_reason r) (suspended_until r)
  | c_is_active =>
      mk (finished_date r) (next_due_date r) v (retired_at r) (retired_reason r) (suspended_until r)
  | c_retired_at =>
      mk (finished_date r) (next_due_date r) (is_active r) v (retired_reason r) (suspended_until r)
  | c_retired_reason =>
      mk (finished_date r) (next_due_date r) (is_active r) (retired_at r) v (suspended_until r)
  | c_suspended_until =>
      mk (finished_date r) (next_due_date r) (is_active r) (retired_at r) (retired_reason r) v
  end.

(** Binding the [?] of the SET list, left to right. *)
Fixpoint bind_set (clk : sql_clock) (fields : list set_frag) (vals : list sqlval)
    : result (list (column * sqlval) * list sqlval) :=
  match fields with
  | [] => Ok ([], vals)
  | SetParam c :: fs =>
      match vals with
      | v :: vals' =>
          ' (asg, rest) <- bind_set clk fs vals' ;; Ok ((c, v) :: asg, rest)
      | [] => Raise ProgrammingError
      end
  | SetDateNow c :: fs =>
      ' (asg, rest) <- bind_set clk fs vals ;; Ok ((c, sql_date clk 0) :: asg, rest)
  | SetNull c :: fs =>
      ' (asg, rest) <- bind_set clk fs vals ;; Ok ((c, VNull) :: asg, rest)
  end.

(** Assignments are applied in order, so of several assignments to one
    column the rightmost is the one that stays. *)
Definition apply_set (asg : list (column * sqlval)) (r : ppm_row) : ppm_row :=
  fold_left (fun r cv => set_col (fst cv) (snd cv) r) asg r.

(** [UPDATE ppm_plan SET <fields> WHERE ppm_plan_id = ?]. *)
Definition update_ppm_plan (clk : sql_clock) (d : db)
    (fields : list set_frag) (vals : list sqlval) : result db :=
  ' (asg, rest) <- bind_set clk fields vals ;;
  match rest with
  | [key] =>
      Ok {| site := site d;
            ppm_plan :=
              map (fun r => if is_true (sql_eq (VInt (ppm_plan_id r)) key)
                            then apply_set asg r else r)
                  (ppm_plan d) |}
  | _ => Raise ProgrammingError
  end.

Definition sql_of_opt (o : option string) : sqlval :=
  match o with Some s => VText s | None => VNull end.

Definition getattr (body : PpmUpdate.t) (k : column) : option string :=
  match k with
  | c_finished_date => PpmUpdate.finished_date body
  | c_next_due_date => PpmUpdate.next_due_date body
  | c_retired_reason => PpmUpdate.retired_reason body
  | c_suspended_until => PpmUpdate.suspended_until body
  | c_retired_at => PpmUpdate.retired_at body
  | c_is_active => None
  end.

(** [fields] and [vals] as the handler has them before the emptiness test. *)
Definition ppm_assignments (body : PpmUpdate.t) : list set_frag * list sqlval :=
  let '(fields, vals) :=
    fold_left
      (fun '(fields, vals) k =>
         match getattr body k with
         | Some v => (fields ++ [SetParam k], vals ++ [sql_of_opt (or_none v)])
         | None => (fields, vals)
         end)
      [c_finished_date; c_next_due_date; c_retired_reason; c_suspended_until]
      ([], []) in
  match PpmUpdate.is_active body with
  | Some act =>
      let fields := fields ++ [SetParam c_is_active] in
      let vals := vals ++ [VInt (if act then 1 else 0)] in
      if negb act then
        match PpmUpdate.retired_at body with
        | Some ra => (fields ++ [SetParam c_retired_at], vals ++ [VText ra])
        | None => (fields ++ [SetDateNow c_retired_at], vals)
        end
      else (fields ++ [SetNull c_retired_at; SetNull c_retired_reason], vals)
  | None => (fields, vals)
  end.

(** A handler leaves a store behind and answers with a value or an error. *)
Definition outcome (A : Type) : Type := (db * result A)%type.

Definition api_update_ppm (clk : sql_clock) (d : db)
    (ppm_plan_id : Z) (body : PpmUpdate.t) : outcome bool :=
  let '(fields, vals) := ppm_assignments body in
  match fields with
  | [] => (d, Raise (HTTPException 400 "No updatable fields provided"))
  | _ =>
      let vals := vals ++ [VInt ppm_plan_id] in
      match update_ppm_plan clk d fields vals with
      | Ok d' => (d', Ok true)           (* conn.commit() *)
      | Raise e => (d, Raise e)
      end
  end.

(** PATCH /api/ppm/{ppm_plan_id}: the body is validated, then handled. *)
Definition patch_ppm (clk : sql_clock) (d : db)
    (ppm_plan_id : Z) (j : ppm_update_json) : outcome bool :=
  match PpmUpdate.validate j with
  | Ok body => api_update_ppm clk d ppm_plan_id body
  | Raise e => (d, Raise e)
  end.

(* ------------------------------------------------------------------ *)
(** ** UPDATE site *)

(** [UPDATE site SET status=?, updated_at=CURRENT_TIMESTAMP WHERE site_id=?]:
    the new table and [cur.rowcount]. *)
Definition update_site (clk : sql_clock) (d : db) (st : string) (sid : string)
    : db * Z :=
  let hit (s : site_row) := String.eqb (site_id s) sid in
  ({| site :=
        map (fun s =>
               if hit s then
                 {| site_id := site_id s; name := name s; uprn := uprn s;
                    site_code := site_code s; status := VText st;
                    site_type_code := site_type_code s;
                    updated_at := VText (current_timestamp clk) |}
               else s) (site d);
      ppm_plan := ppm_plan d |},
   Z.of_nat (List.length (filter hit (site d)))).

Definition api_update_site (clk : sql_clock) (d : db)
    (sid : string) (body : SiteUpdate.t) : outcome bool :=
  let '(d', rowcount) := update_site clk d (SiteUpdate.status body) sid in
  if rowcount =? 0
  then (d, Raise (HTTPException 404 "site not found"))  (* closed, never committed *)
  else (d', Ok true).                                   (* conn.commit() *)

(** PATCH /api/site/{site_id}. *)
Definition patch_site (clk : sql_clock) (d : db)
    (sid : string) (j : option pyval) : outcome bool :=
  match SiteUpdate.validate j with
  | Ok body => api_update_site clk d sid body
  | Raise e => (d, Raise e)
  end.

Arguments isoformat : simpl never.
Arguments sql_date : simpl never.
Arguments fromisoformat : simpl never.
Arguments sql_eq : simpl never.

(* ------------------------------------------------------------------ *)
(** ** Sample data *)

Module Sample.

(** The store clock on 2025-03-15. *)
Definition clk : sql_clock :=
  {| date_now := 739325; current_timestamp := "2025-03-15 10:00:00" |}.

Definition town_hall : site_row :=
  {| site_id := "S1"; name := VText "Town Hall"; uprn := VText "100023";
     site_code := VText "TH"; status := VText "Active";
     site_type_code := VText "OFF"; updated_at := VNull |}.

Definition depot : site_row :=
  {| site_id := "S2"; name := VText "Depot"; uprn := VText "100024";
     site_code := VText "DP"; status := VText "Active";
     site_type_code := VText "IND"; updated_at := VNull |}.

(** A retired plan of the town hall. *)
Definition boiler : ppm_row :=
  {| ppm_plan_id := 7; ppm_site_id := "S1"; category_id := VInt 5;
     priority := VText "High"; instruction := VText "Boiler service";
     frequency_months := VInt 12; finished_date := VText "2024-01-01";
     next_due_date := VText "2025-01-01"; is_active := VInt 0;
     retired_at := VText "2024-06-01"; retired_reason := VText "replaced";
     suspended_until := VNull |}.

(** An active, overdue plan of the depot. *)
Definition alarm : ppm_row :=
  {| ppm_plan_id := 8; ppm_site_id := "S2"; category_id := VInt 3;
     priority := VText "High"; instruction := VText "Fire alarm test";
     frequency_months := VInt 6; finished_date := VText "2024-08-01";
     next_due_date := VText "2025-02-01"; is_active := VInt 1;
     retired_at := VNull; retired_reason := VNull;
     suspended_until := VNull |}.

(** A second active plan of the depot, due in three weeks. *)
Definition lift : ppm_row :=
  {| ppm_plan_id := 9; ppm_site_id := "S2"; category_id := VInt 5;
     priority := VText "Low"; instruction := VText "Lift inspection";
     frequency_months := VInt 12; finished_date := VText "2024-04-05";
     next_due_date := VText "2025-04-05"; is_active := VInt 1;
     retired_at := VNull; retired_reason := VNull;
     suspended_until := VNull |}.

Definition store : db :=
  {| site := [town_hall; depot]; ppm_plan := [boiler; alarm; lift] |}.


Definition list_all : sites_query :=
  {| arg_q := None; arg_status := None; arg_site_type := None;
     arg_category_id := None; arg_priority := None;
     arg_due_window := DwAll; arg_limit := 50 |}.

End Sample.

(* ------------------------------------------------------------------ *)
(** ** Properties stated on rows and filters *)

(** Every case of which members a validated body carries. *)
Ltac body_cases body :=
  destruct body as [fd nd ia rr ra su];
  destruct fd as [fd|], nd as [nd|], rr as [rr|], su as [su|], ra as [ra|];
  try destruct ia as [[|]|].





(** Plan rows of a store with a given identifier. *)
Definition plans_with_id (id : Z) (d : db) : list ppm_row :=
  filter (fun r => ppm_plan_id r =? id) (ppm_plan d).

(** What a status update to [st] leaves in row [s'] for row [s]. *)
Definition status_set (clk : sql_clock) (st sid : string)
    (s s' : site_row) : Prop :=
  site_id s' = site_id s /\ name s' = name s /\ uprn s' = uprn s
  /\ site_code s' = site_code s /\ site_type_code s' = site_type_code s
  /\ (site_id s = sid ->
      status s' = VText st /\ updated_at s' = VText (current_timestamp clk))
  /\ (site_id s <> sid -> s' = s).

(** The conditions the fragments of [build_where] stand for once the
    parameters are bound, read off the filters directly. *)
Definition opt_list {A B : Type} (g : A -> B) (o : option A) : list B :=
  match o with Some a => [g a] | None => [] end.

Definition like_pattern (q : string) : sqlval :=
  VText ("%" ++ lower q ++ "%")%string.

Definition due_conds (dw : string) : list plan_cond :=
  if String.eqb dw "overdue" then [Overdue]
  else if String.eqb dw "soon" then [Soon]
  else if String.eqb dw "quarter" then [Quarter]
  else [].

Definition plan_conds_of (f : filters) : list plan_cond :=
  opt_list (fun c => CategoryEq (VInt c)) (get_int (f_category_id f))
  ++ opt_list (fun p => PriorityEq (VText p)) (get_str (f_priority f))
  ++ due_conds (get_due_window (f_due_window f)).

Definition top_conds_of (f : filters) : list site_cond :=
  opt_list (fun v => StatusEq (VText v)) (get_str (f_status f))
  ++ opt_list (fun v => SiteTypeEq (VText v)) (get_str (f_site_type f))
  ++ opt_list (fun q => Like3 (like_pattern q) (like_pattern q) (like_pattern q))
              (get_str (f_q f)).

(** The test that guards the EXISTS block. *)
Definition exists_guard (f : filters) : bool :=
  opt_int_truthy (f_category_id f) || opt_str_truthy (f_priority f)
  || opt_str_truthy (f_due_window f).

(** The site-level filters, stated on a site row. *)
Definition site_conditions (f : filters) (s : site_row) : Prop :=
  (forall v, get_str (f_status f) = Some v ->
     sql_eq (status s) (VText v) = Some true)
  /\ (forall v, get_str (f_site_type f) = Some v ->
     sql_eq (site_type_code s) (VText v) = Some true)
  /\ (forall q, get_str (f_q f) = Some q ->
     tri_or (tri_or (sql_like (sql_lower (name s)) (like_pattern q))
                    (sql_like (sql_lower (site_code s)) (like_pattern q)))
            (sql_like (sql_lower (uprn s)) (like_pattern q)) = Some true).

(** The due-window condition on one plan row. *)
Definition due_window_holds (clk : sql_clock) (dw : string) (ap : ppm_row) : Prop :=
  (dw = "overdue" ->
     next_due_date ap <> VNull
     /\ sql_lt (next_due_date ap) (sql_date clk 0) = Some true)
  /\ (dw = "soon" ->
     sql_le (sql_date clk 0) (next_due_date ap) = Some true
     /\ sql_le (next_due_date ap) (sql_date clk 30) = Some true)
  /\ (dw = "quarter" ->
     sql_le (sql_date clk 0) (next_due_date ap) = Some true
     /\ sql_le (next_due_date ap) (sql_date clk 90) = Some true).

(** The plan-level filters that are set, all on the same plan row. *)
Definition plan_conditions (clk : sql_clock) (f : filters) (ap : ppm_row) : Prop :=
  (forall c, get_int (f_category_id f) = Some c ->
     sql_eq (category_id ap) (VInt c) = Some true)
  /\ (forall p, get_str (f_priority f) = Some p ->
     sql_eq (priority ap) (VText p) = Some true)
  /\ due_window_holds clk (get_due_window (f_due_window f)) ap.

(** A plan row in force: active and not currently suspended. *)
Definition in_force_row (clk : sql_clock) (ap : ppm_row) : Prop :=
  is_active ap = VInt 1
  /\ (suspended_until ap = VNull
      \/ sql_le (suspended_until ap) (sql_date clk 0) = Some true).


(* ------------------------------------------------------------------ *)
(** ** The plan listing of a site: api_ppm_by_site *)

Module Category.

(** A row of the [category] lookup table. *)
Record t : Type := { category_id : sqlval; name : sqlval }.

End Category.

(** One element of the answer: the plan columns and [category_name]. *)
Record ppm_dict : Type := {
  plan : ppm_row;
  category_name : sqlval
}.

(** [p LEFT JOIN category c ON c.category_id = p.category_id]: one row per
    matching category, and one row with a NULL name when none matches. *)
Definition left_join_category (cats : list Category.t) (p : ppm_row)
    : list ppm_dict :=
  match filter (fun c => is_true (sql_eq (Category.category_id c) (category_id p)))
               cats with
  | [] => [{| plan := p; category_name := VNull |}]
  | cs => map (fun c => {| plan := p; category_name := Category.name c |}) cs
  end.

(** [COALESCE(p.next_due_date, '9999-12-31')]. *)
Definition due_key (p : ppm_row) : sqlval :=
  match next_due_date p with
  | VNull => VText "9999-12-31"
  | v => v
  end.

Fixpoint insert_by_due (x : ppm_dict) (l : list ppm_dict) : list ppm_dict :=
  match l with
  | [] => [x]
  | t :: l' =>
      if order_le (due_key (plan t)) (due_key (plan x))
      then t :: insert_by_due x l'
      else x :: t :: l'
  end.

(** [ORDER BY COALESCE(p.next_due_date, '9999-12-31') ASC]. *)
Definition order_by_due (l : list ppm_dict) : list ppm_dict :=
  fold_left (fun acc x => insert_by_due x acc) l [].

Definition api_ppm_by_site (clk : sql_clock) (d : db) (cats : list Category.t)
    (sid : string) (include_inactive : Z) : list ppm_dict :=
  let source :=
    if negb (include_inactive =? 0) then ppm_plan d
    else view_active_ppm clk d in
  order_by_due
    (filter (fun r => String.eqb (ppm_site_id (plan r)) sid)
            (flat_map (left_join_category cats) source)).

(* ------------------------------------------------------------------ *)
(** ** The counters: api_summary *)

Record summary : Type := {
  total_sites : Z;
  active_sites : Z;
  total_ppm_active : Z;
  overdue : Z;
  due_next_30 : Z;
  compliant_sites : Z;
  non_compliant_sites : Z;
  today_iso : string
}.

(** [SELECT COUNT( * ) FROM l WHERE f]. *)
Definition sql_count {A : Type} (f : A -> bool) (l : list A) : Z :=
  Z.of_nat (List.length (filter f l)).

(** [next_due_date BETWEEN date('now') AND date('now','+30 days')]. *)
Definition due_soon_row (clk : sql_clock) (p : ppm_row) : bool :=
  is_true (sql_between (next_due_date p) (sql_date clk 0) (sql_date clk 30)).

(** [site s JOIN view_active_ppm p ON p.site_id = s.site_id]. *)
Definition site_join_active (clk : sql_clock) (d : db)
    : list (site_row * ppm_row) :=
  flat_map (fun s =>
              map (fun p => (s, p))
                  (filter (fun p => String.eqb (ppm_site_id p) (site_id s))
                          (view_active_ppm clk d)))
           (site d).

(** [COUNT(DISTINCT s.site_id)] over the joined rows with an overdue plan. *)
Definition overdue_site_ids (clk : sql_clock) (d : db) : list string :=
  nodup string_dec
    (map (fun sp => site_id (fst sp))
         (filter (fun sp => overdue_row clk (snd sp)) (site_join_active clk d))).

Definition api_summary (today : date) (clk : sql_clock) (d : db) : summary :=
  let total_sites := sql_count (fun _ => true) (site d) in
  let active_sites :=
    sql_count (fun s => is_true (sql_eq (status s) (VText "Active"))) (site d) in
  let total_ppm_active := sql_count (fun _ => true) (view_active_ppm clk d) in
  let overdue := sql_count (overdue_row clk) (view_active_ppm clk d) in
  let due_30 := sql_count (due_soon_row clk) (view_active_ppm clk d) in
  let non_compliant_sites := Z.of_nat (List.length (overdue_site_ids clk d)) in
  let compliant_sites := active_sites - non_compliant_sites in
  {| total_sites := total_sites; active_sites := active_sites;
     total_ppm_active := total_ppm_active; overdue := overdue;
     due_next_30 := due_30; compliant_sites := compliant_sites;
     non_compliant_sites := non_compliant_sites;
     today_iso := isoformat today |}.

(* ------------------------------------------------------------------ *)
(** ** The export table: api_export_sites_csv *)

(** A row of the export: the site columns and the three subquery columns as
    the statement returns them. *)
Record export_row : Type := {
  ex_site : site_row;
  ex_min_next_due : sqlval;
  ex_overdue_count : sqlval;
  ex_active_ppm : sqlval
}.

(** Column names of the rows the SELECT returns, [rows[0].keys()]. *)
Definition select_columns : list string :=
  ["site_id"; "name"; "uprn"; "site_code"; "status"; "site_type_code";
   "min_next_due"; "overdue_count"; "active_ppm"].

(** The field names spelled out for an empty result. *)
Definition export_columns : list string :=
  ["site_id"; "name"; "uprn"; "site_code"; "status"; "site_type_code";
   "min_next_due"; "overdue_count"; "active_ppm"].

Definition export_row_of (clk : sql_clock) (d : db) (s : site_row) : export_row :=
  let ps := active_of clk d s in
  {| ex_site := s;
     ex_min_next_due := sql_min (map next_due_date ps);
     ex_overdue_count := sql_sum_overdue clk ps;
     ex_active_ppm := VInt (Z.of_nat (List.length ps)) |}.

(** The field names and the rows handed to the CSV writer. *)
Definition api_export_sites_csv (clk : sql_clock) (d : db) (a : sites_query)
    : result (list string * list export_row) :=
  let '(w, params) := build_where (filters_of a) [] in
  let params := params ++ [VInt (arg_limit a)] in
  rows <- select_sites clk d w params ;;
  Ok (match rows with [] => export_columns | _ => select_columns end,
      map (export_row_of clk d) rows).

(** Number of occurrences of a character in a text. *)
Fixpoint count_char (c : ascii) (s : string) : nat :=
  match s with
  | EmptyString => O
  | String x s' => (if Ascii.eqb x c then 1 else 0) + count_char c s'
  end.

(* ------------------------------------------------------------------ *)
(** ** Properties of stored rows *)

(** A date column holds NULL or a text of the ten-character shape. *)
Definition date_or_null (v : sqlval) : Prop :=
  match v with
  | VNull => True
  | VText s => PpmUpdate.date_shaped s = true
  | VInt _ => False
  end.

Definition dates_ok (p : ppm_row) : Prop :=
  date_or_null (finished_date p) /\ date_or_null (next_due_date p)
  /\ date_or_null (retired_at p) /\ date_or_null (suspended_until p).

(** The columns no plan update assigns. *)
Definition same_fixed_columns (p p' : ppm_row) : Prop :=
  ppm_plan_id p' = ppm_plan_id p /\ ppm_site_id p' = ppm_site_id p
  /\ category_id p' = category_id p /\ priority p' = priority p
  /\ instruction p' = instruction p
  /\ frequency_months p' = frequency_months p.

(** The status column holds one of the five literals. *)
Definition status_ok (s : site_row) : Prop :=
  exists st, status s = VText st /\ In st SiteUpdate.statuses.






(** Plan rows in ascending order of their due key. *)
Definition due_le (r t : ppm_dict) : Prop :=
  order_le (due_key (plan r)) (due_key (plan t)) = true.

(** A row of the listing and the row of the export for the same site. *)
Definition listed_as (r : site_summary) (e : export_row) : Prop :=
  sum_site r = ex_site e
  /\ min_next_due r = py_or_none (py_of_sql (ex_min_next_due e))
  /\ overdue_count r = int_or_zero (ex_overdue_count e)
  /\ VInt (active_ppm r) = ex_active_ppm e.





(* ------------------------------------------------------------------ *)
(** ** Properties of the free-text and blank filters *)





Fixpoint all_space (s : string) : bool :=
  match s with
  | EmptyString => true
  | String c s' => is_space c && all_space s'
  end.

(** A query parameter that is missing or holds white space only. *)
Definition blank (o : option string) : bool :=
  match o with None => true | Some s => all_space s end.

Definition unblank (o : option string) : option string :=
  if blank o then None else o.

(* ------------------------------------------------------------------ *)
(** ** The filter options: api_filters *)

Module SiteType.

(** A row of the [site_type] lookup table. *)
Record t : Type := { site_type_code : sqlval; site_type_name : sqlval }.

End SiteType.

Fixpoint insert_by {A : Type} (le : A -> A -> bool) (x : A) (l : list A)
    : list A :=
  match l with
  | [] => [x]
  | t :: l' => if le t x then t :: insert_by le x l' else x :: t :: l'
  end.

(** ORDER BY with the row order [le]; rows that tie keep their order. *)
Definition sort_by {A : Type} (le : A -> A -> bool) (l : list A) : list A :=
  fold_left (fun acc x => insert_by le x acc) l [].

(** [ORDER BY name NULLS LAST, code]. *)
Definition site_type_le (a b : SiteType.t) : bool :=
  match SiteType.site_type_name a, SiteType.site_type_name b with
  | VNull, VNull =>
      order_le (SiteType.site_type_code a) (SiteType.site_type_code b)
  | VNull, _ => false
  | _, VNull => true
  | na, nb =>
      match sql_compare na nb with
      | Some Lt => true
      | Some Eq =>
          order_le (SiteType.site_type_code a) (SiteType.site_type_code b)
      | _ => false
      end
  end.

(** [ORDER BY name] on the category table. *)
Definition category_le (a b : Category.t) : bool :=
  order_le (Category.name a) (Category.name b).

Definition sqlval_eq_dec : forall a b : sqlval, {a = b} + {a <> b}.
Proof.
  decide equality; [apply Z.eq_dec | apply string_dec].
Defined.

(** [(r[0] or "")] where it is a text; [None] where [.strip()] does not
    exist on it (a non-zero integer). *)
Definition or_empty_text (v : sqlval) : option string :=
  match v with
  | VNull => Some ""
  | VText s => Some s
  | VInt z => if z =? 0 then Some "" else None
  end.

Definition strip (s : string) : string := rstrip (lstrip s).

(** The set comprehension over the distinct priorities, as the list of its
    members in row order; [None] when a row raises AttributeError. *)
Fixpoint stripped_priorities (rows : list sqlval) : option (list string) :=
  match rows with
  | [] => Some []
  | v :: rest =>
      match or_empty_text v with
      | None => None
      | Some t =>
          match stripped_priorities rest with
          | None => None
          | Some acc => Some (if str_truthy (strip t) then strip t :: acc else acc)
          end
      end
  end.

Fixpoint insert_unique (x : string) (l : list string) : list string :=
  match l with
  | [] => [x]
  | y :: l' =>
      match String.compare x y with
      | Lt => x :: l
      | Eq => l
      | Gt => y :: insert_unique x l'
      end
  end.

(** [sorted(set(l))]. *)
Definition sorted_set (l : list string) : list string :=
  fold_right insert_unique [] l.

Record filter_options : Type := {
  site_types : list SiteType.t;
  categories : list Category.t;
  priorities : list string
}.

Inductive filters_answer : Type :=
| FilterOptions (o : filter_options)
| AttributeError.   (* 'int' object has no attribute 'strip' *)

Definition api_filters (d : db) (types : list SiteType.t)
    (cats : list Category.t) : filters_answer :=
  let site_types := sort_by site_type_le types in
  let categories := sort_by category_le cats in
  match stripped_priorities (nodup sqlval_eq_dec (map priority (ppm_plan d))) with
  | Some ps =>
      FilterOptions {| site_types := site_types; categories := categories;
                       priorities := sorted_set ps |}
  | None => AttributeError
  end.




(* ------------------------------------------------------------------ *)
(** ** Checks of the definitions on sample values *)

Example iso_2025_03_15 : fromisoformat "2025-03-15" = Ok 739325.
Proof. reflexivity. Qed.

Example iso_roundtrip_sample : isoformat 739325 = "2025-03-15".
Proof. reflexivity. Qed.

Example iso_leap_day : isoformat (739325 - 380) = "2024-02-29".
Proof. reflexivity. Qed.

Example ordinals_agree :
  fromisoformat "0001-01-01" = Ok 1
  /\ fromisoformat "1900-03-01" = Ok 693655
  /\ fromisoformat "2000-12-31" = Ok 730485
  /\ fromisoformat "2024-02-29" = Ok 738945
  /\ fromisoformat "9999-12-31" = Ok MAXORDINAL
  /\ map isoformat [1; 693655; 730485; 738945; MAXORDINAL]
     = ["0001-01-01"; "1900-03-01"; "2000-12-31"; "2024-02-29"; "9999-12-31"].
Proof. repeat split; reflexivity. Qed.

Example iso_rejects_bad_day :
  fromisoformat "2025-02-29" = Raise (ValueError "date value out of range").
Proof. reflexivity. Qed.

Example iso_rejects_dmy : fromisoformat "15-03-2025" =
  Raise (ValueError "Invalid isoformat string").
Proof. reflexivity. Qed.

Example like_substring : like_match "%all%" "town hall annex" = true.
Proof. reflexivity. Qed.

Example like_no_match : like_match "%xyz%" "town hall annex" = false.
Proof. reflexivity. Qed.

(* ------------------------------------------------------------------ *)
(** ** Due-status classifier *)

(** C5: an overdue flag decides the classification: whatever the earliest
    due date is, an absent one included, the answer is DUE. *)
Theorem classify_overdue_is_due :
  forall (today : date) (min_next_due : pyval),
    classify_site_status today min_next_due true = Ok "DUE".
Proof. intros today m. reflexivity. Qed.

Lemma fromisoformat_truthy :
  forall s nd, fromisoformat s = Ok nd -> str_truthy s = true.
Proof.
  intros s nd H. destruct s as [|c s]; [|reflexivity].
  unfold fromisoformat in H. simpl in H. discriminate H.
Qed.

Lemma classify_parsed :
  forall today s nd,
    fromisoformat s = Ok nd ->
    1 <= today -> today + 30 <= MAXORDINAL ->
    classify_site_status today (PStr s) false =
      Ok (if nd <? today then "DUE"
          else if nd <=? today + 30 then "DUE_SOON" else "OK").
Proof.
  intros today s nd Hs Hlo Hhi.
  unfold classify_site_status. simpl truthy.
  rewrite (fromisoformat_truthy _ Hs). simpl negb. cbv iota.
  rewrite Hs. unfold bind.
  destruct (nd <? today); [reflexivity|].
  unfold date_add_days.
  replace ((1 <=? today + 30) && (today + 30 <=? MAXORDINAL)) with true.
  - destruct (nd <=? today + 30); reflexivity.
  - symmetry. apply andb_true_iff. split; apply Z.leb_le; lia.
Qed.

(** C6: with no overdue plan, and a clock for which [today + 30 days] is
    still a date, a due date equal to today classifies as DUE_SOON, the day
    before as DUE, thirty days ahead as DUE_SOON, thirty-one days ahead as
    OK, and an absent due date as OK. *)
Theorem classify_boundaries :
  forall today : date,
    1 <= today -> today + 30 <= MAXORDINAL ->
    (forall s, fromisoformat s = Ok today ->
       classify_site_status today (PStr s) false = Ok "DUE_SOON")
    /\ (forall s, fromisoformat s = Ok (today - 1) ->
       classify_site_status today (PStr s) false = Ok "DUE")
    /\ (forall s, fromisoformat s = Ok (today + 30) ->
       classify_site_status today (PStr s) false = Ok "DUE_SOON")
    /\ (forall s, fromisoformat s = Ok (today + 31) ->
       classify_site_status today (PStr s) false = Ok "OK")
    /\ classify_site_status today PNone false = Ok "OK".
Proof.
  intros today Hlo Hhi.
  repeat split; try reflexivity; intros s Hs;
    rewrite (classify_parsed _ Hs Hlo Hhi).
  - replace (today <? today) with false by (symmetry; apply Z.ltb_ge; lia).
    replace (today <=? today + 30) with true by (symmetry; apply Z.leb_le; lia).
    reflexivity.
  - replace (today - 1 <? today) with true by (symmetry; apply Z.ltb_lt; lia).
    reflexivity.
  - replace (today + 30 <? today) with false by (symmetry; apply Z.ltb_ge; lia).
    replace (today + 30 <=? today + 30) with true by (symmetry; apply Z.leb_le; lia).
    reflexivity.
  - replace (today + 31 <? today) with false by (symmetry; apply Z.ltb_ge; lia).
    replace (today + 31 <=? today + 30) with false by (symmetry; apply Z.leb_gt; lia).
    reflexivity.
Qed.

(** The boundaries on 2025-03-15. *)
Lemma classify_boundaries_witness :
  classify_site_status 739325 (PStr "2025-03-15") false = Ok "DUE_SOON"
  /\ classify_site_status 739325 (PStr "2025-03-14") false = Ok "DUE"
  /\ classify_site_status 739325 (PStr "2025-04-14") false = Ok "DUE_SOON"
  /\ classify_site_status 739325 (PStr "2025-04-15") false = Ok "OK"
  /\ classify_site_status 739325 PNone false = Ok "OK".
Proof.
  assert (Hlo : 1 <= 739325) by lia.
  assert (Hhi : 739325 + 30 <= MAXORDINAL) by (unfold MAXORDINAL; lia).
  destruct (classify_boundaries Hlo Hhi) as (H0 & H1 & H2 & H3 & H4).
  split; [apply H0; reflexivity|].
  split; [apply H1; reflexivity|].
  split; [apply H2; reflexivity|].
  split; [apply H3; reflexivity|exact H4].
Defined.

(* ------------------------------------------------------------------ *)
(** ** Plan updates *)

Lemma Forall2_map_self :
  forall (A : Type) (R : A -> A -> Prop) (f : A -> A) (l : list A),
    (forall x, R x (f x)) -> Forall2 R l (map f l).
Proof.
  intros A R f l H. induction l as [|x l IH]; simpl; constructor; auto.
Qed.



Lemma or_none_nonempty : forall s : string, s <> "" -> or_none s = Some s.
Proof. intros [|c s] H; [contradiction H; reflexivity | reflexivity]. Qed.



Lemma date_shaped_truthy :
  forall s, PpmUpdate.date_shaped s = true -> str_truthy s = true.
Proof.
  intros [|c s] H; [discriminate H | reflexivity].
Qed.

Lemma date_like_shaped :
  forall s, PpmUpdate.date_shaped s = true ->
    PpmUpdate.date_like (PStr s) = Ok (Some s).
Proof.
  intros s H. unfold PpmUpdate.date_like.
  rewrite (date_shaped_truthy _ H), H. reflexivity.
Qed.

(** C10: a request whose only member is a well-shaped [retired_at] is
    answered with the 400 error "No updatable fields provided" and the store
    stays as it was; the handler reads [retired_at] only next to
    [is_active = false], so whatever its value it is not written alone. *)
Theorem retired_at_alone_is_rejected :
  forall (clk : sql_clock) (d : db) (id : Z),
    (forall s, PpmUpdate.date_shaped s = true ->
       patch_ppm clk d id
         {| j_finished_date := None; j_next_due_date := None;
            j_is_active := None; j_retired_reason := None;
            j_retired_at := Some (PStr s); j_suspended_until := None |}
       = (d, Raise (HTTPException 400 "No updatable fields provided")))
    /\ (forall ra,
       api_update_ppm clk d id
         {| PpmUpdate.finished_date := None; PpmUpdate.next_due_date := None;
            PpmUpdate.is_active := None; PpmUpdate.retired_reason := None;
            PpmUpdate.retired_at := ra; PpmUpdate.suspended_until := None |}
       = (d, Raise (HTTPException 400 "No updatable fields provided"))).
Proof.
  intros clk d id. split.
  - intros s Hs. unfold patch_ppm, PpmUpdate.validate, PpmUpdate.validate_date.
    cbn [j_finished_date j_next_due_date j_retired_at j_suspended_until bind].
    rewrite (date_like_shaped _ Hs). reflexivity.
  - intros ra. reflexivity.
Qed.

(** A request carrying only [retired_at = "2025-03-01"]. *)
Lemma retired_at_alone_is_rejected_witness :
  patch_ppm Sample.clk Sample.store 8
    {| j_finished_date := None; j_next_due_date := None;
       j_is_active := None; j_retired_reason := None;
       j_retired_at := Some (PStr "2025-03-01"); j_suspended_until := None |}
  = (Sample.store, Raise (HTTPException 400 "No updatable fields provided")).
Proof.
  apply (proj1 (retired_at_alone_is_rejected Sample.clk Sample.store 8)).
  reflexivity.
Defined.

(* ------------------------------------------------------------------ *)
(** ** Validation of plan updates *)






(** C2 on the fire alarm plan: an empty [finished_date] sent together with
    a new due date is accepted, and [finished_date] keeps its old value
    instead of becoming NULL; an empty [retired_reason] in the same position
    does end as NULL. *)
Theorem empty_date_is_not_cleared :
  (exists d',
     patch_ppm Sample.clk Sample.store 8
       {| j_finished_date := Some (PStr "");
          j_next_due_date := Some (PStr "2025-03-15");
          j_is_active := None; j_retired_reason := None;
          j_retired_at := None; j_suspended_until := None |} = (d', Ok true)
     /\ map finished_date (plans_with_id 8 d') = [VText "2024-08-01"]
     /\ map next_due_date (plans_with_id 8 d') = [VText "2025-03-15"])
  /\ (exists d',
     patch_ppm Sample.clk Sample.store 7
       {| j_finished_date := None;
          j_next_due_date := Some (PStr "2025-03-15");
          j_is_active := None; j_retired_reason := Some "";
          j_retired_at := None; j_suspended_until := None |} = (d', Ok true)
     /\ map retired_reason (plans_with_id 7 Sample.store) = [VText "replaced"]
     /\ map retired_reason (plans_with_id 7 d') = [VNull]).
Proof.
  split; eexists; (split; [vm_compute; reflexivity|]); split; reflexivity.
Qed.

(** An empty string in a date member never reaches the UPDATE: the column
    keeps its value in every row, whatever else the request carries. *)
Lemma empty_finished_date_is_ignored :
  forall (clk : sql_clock) (d d' : db) (id : Z) (j : ppm_update_json) (a : bool),
    j_finished_date j = Some (PStr "") ->
    patch_ppm clk d id j = (d', Ok a) ->
    Forall2 (fun r r' => finished_date r' = finished_date r)
            (ppm_plan d) (ppm_plan d').
Proof.
  intros clk d d' id j a Hj Hp.
  unfold patch_ppm, PpmUpdate.validate in Hp. rewrite Hj in Hp.
  cbn [PpmUpdate.validate_date PpmUpdate.date_like str_truthy negb bind] in Hp.
  destruct (PpmUpdate.validate_date "next_due_date" (j_next_due_date j)) as [nd|e];
    [|discriminate Hp].
  destruct (PpmUpdate.validate_date "retired_at" (j_retired_at j)) as [ra|e];
    [|discriminate Hp].
  destruct (PpmUpdate.validate_date "suspended_until" (j_suspended_until j)) as [su|e];
    [|discriminate Hp].
  cbn [bind] in Hp.
  destruct nd as [nd|], ra as [ra|], su as [su|],
           (j_retired_reason j) as [rr|], (j_is_active j) as [[|]|];
    cbn in Hp; try discriminate Hp;
    injection Hp as Hd _; subst d'; cbn;
    apply Forall2_map_self; intro r;
    destruct (Z.compare_spec (ppm_plan_id r) id); reflexivity.
Qed.

(* ------------------------------------------------------------------ *)
(** ** Site status update *)

Lemma status_allowed :
  forall st, existsb (String.eqb st) SiteUpdate.statuses = true
             <-> In st SiteUpdate.statuses.
Proof.
  intro st. rewrite existsb_exists. split.
  - intros [x [Hin Heq]]. apply String.eqb_eq in Heq. subst x. exact Hin.
  - intro Hin. exists st. split; [exact Hin | apply String.eqb_refl].
Qed.

Lemma rowcount_zero :
  forall (sid : string) (l : list site_row),
    (forall s, In s l -> site_id s <> sid) ->
    filter (fun s => String.eqb (site_id s) sid) l = [].
Proof.
  intros sid l H. induction l as [|s l IH]; [reflexivity|].
  simpl. destruct (String.eqb_spec (site_id s) sid) as [E|N].
  - exfalso. apply (H s); [left; reflexivity | exact E].
  - apply IH. intros t Ht. apply H. right. exact Ht.
Qed.

Lemma rowcount_positive :
  forall (sid : string) (l : list site_row),
    (exists s, In s l /\ site_id s = sid) ->
    (Z.of_nat (List.length (filter (fun s => String.eqb (site_id s) sid) l)) =? 0)
    = false.
Proof.
  intros sid l [s [Hin Hs]].
  assert (Hf : In s (filter (fun s => String.eqb (site_id s) sid) l))
    by (apply filter_In; split; [exact Hin | apply String.eqb_eq; exact Hs]).
  destruct (filter (fun s0 => String.eqb (site_id s0) sid) l) as [|x xs];
    [destruct Hf|].
  apply Z.eqb_neq. simpl List.length. lia.
Qed.

(** C9: the site status update accepts only the five statuses (anything
    else is refused with the store unchanged); with a valid status and a
    matching site it succeeds, sets [status] and sets [updated_at] to the
    store's timestamp of the statement in every matching row and changes
    nothing else; with a valid status and no matching site it answers 404
    "site not found" and the store is as before. *)
Theorem site_status_update :
  forall (clk : sql_clock) (d : db) (sid : string) (j : option pyval),
    ((forall st, j = Some (PStr st) -> ~ In st SiteUpdate.statuses) ->
       patch_site clk d sid j = (d, Raise (RequestValidationError "status")))
    /\ (forall st,
          j = Some (PStr st) -> In st SiteUpdate.statuses ->
          (exists s, In s (site d) /\ site_id s = sid) ->
          exists d',
            patch_site clk d sid j = (d', Ok true)
            /\ ppm_plan d' = ppm_plan d
            /\ Forall2 (status_set clk st sid) (site d) (site d'))
    /\ (forall st,
          j = Some (PStr st) -> In st SiteUpdate.statuses ->
          (forall s, In s (site d) -> site_id s <> sid) ->
          patch_site clk d sid j
          = (d, Raise (HTTPException 404 "site not found"))).
Proof.
  intros clk d sid j. split; [|split].
  - intros Hno. unfold patch_site, SiteUpdate.validate.
    destruct j as [[|st| |]|]; try reflexivity.
    destruct (existsb (String.eqb st) SiteUpdate.statuses) eqn:E; [|reflexivity].
    exfalso. apply (Hno st); [reflexivity | apply status_allowed; exact E].
  - intros st Hj Hin Hex. subst j.
    unfold patch_site, SiteUpdate.validate.
    rewrite (proj2 (status_allowed st) Hin).
    unfold api_update_site, update_site. cbn [SiteUpdate.status].
    rewrite (rowcount_positive _ Hex).
    eexists. split; [reflexivity|]. split; [reflexivity|].
    cbn [site]. apply Forall2_map_self. intro s. unfold status_set.
    destruct (String.eqb_spec (site_id s) sid) as [E|N]; cbn;
      repeat (split; [reflexivity|]); split; intro H; try contradiction;
      try reflexivity; split; reflexivity.
  - intros st Hj Hin Hno. subst j.
    unfold patch_site, SiteUpdate.validate.
    rewrite (proj2 (status_allowed st) Hin).
    unfold api_update_site, update_site. cbn [SiteUpdate.status].
    rewrite (@rowcount_zero _ _ Hno). reflexivity.
Qed.

(** Closing the town hall, a lower-case status, and an unknown site. *)
Lemma site_status_update_witness :
  patch_site Sample.clk Sample.store "S1" (Some (PStr "closed"))
    = (Sample.store, Raise (RequestValidationError "status"))
  /\ (exists d',
        patch_site Sample.clk Sample.store "S1" (Some (PStr "Closed")) = (d', Ok true)
        /\ ppm_plan d' = ppm_plan Sample.store
        /\ Forall2 (status_set Sample.clk "Closed" "S1") (site Sample.store) (site d'))
  /\ patch_site Sample.clk Sample.store "S9" (Some (PStr "Closed"))
     = (Sample.store, Raise (HTTPException 404 "site not found")).
Proof.
  split; [|split].
  - apply (proj1 (site_status_update Sample.clk Sample.store "S1"
                    (Some (PStr "closed")))).
    intros st Hst Hin. injection Hst as Hst. subst st.
    cbn in Hin. repeat (destruct Hin as [Hin|Hin]; [discriminate Hin|]).
    exact Hin.
  - apply (proj1 (proj2 (site_status_update Sample.clk Sample.store "S1"
                           (Some (PStr "Closed"))))).
    + reflexivity.
    + cbn. right. left. reflexivity.
    + exists Sample.town_hall. split; [left; reflexivity | reflexivity].
  - apply (proj2 (proj2 (site_status_update Sample.clk Sample.store "S9"
                           (Some (PStr "Closed")))) "Closed").
    + reflexivity.
    + cbn. right. left. reflexivity.
    + intros s Hs. cbn in Hs.
      destruct Hs as [Hs|[Hs|[]]]; subst s; discriminate.
Defined.

(* ------------------------------------------------------------------ *)
(** ** The filter compiler *)

Lemma is_true_iff : forall t : tri, is_true t = true <-> t = Some true.
Proof. intros [[|]|]; simpl; split; intro H; try discriminate H; reflexivity. Qed.

Lemma is_true_tri_and :
  forall a b : tri, is_true (tri_and a b) = is_true a && is_true b.
Proof. intros [[|]|] [[|]|]; reflexivity. Qed.

Lemma is_true_conj_all :
  forall (C : Type) (ev : C -> tri) (cs : list C) (seed : tri),
    is_true (conj_all ev seed cs)
    = is_true seed && forallb (fun c => is_true (ev c)) cs.
Proof.
  intros C ev cs. unfold conj_all.
  induction cs as [|c cs IH]; intro seed; simpl.
  - rewrite andb_true_r. reflexivity.
  - rewrite IH, is_true_tri_and, andb_assoc. reflexivity.
Qed.

Lemma opt_str_truthy_get :
  forall o, opt_str_truthy o = match get_str o with Some _ => true | None => false end.
Proof. intros [[|c s]|]; reflexivity. Qed.

Lemma opt_int_truthy_get :
  forall o, opt_int_truthy o = match get_int o with Some _ => true | None => false end.
Proof. intros [z|]; simpl; [destruct (z =? 0)|]; reflexivity. Qed.

(** The statement text and the parameter list fit: binding consumes every
    parameter and yields the conditions above, with the EXISTS block
    present exactly when its guard holds. *)
Lemma build_where_bound :
  forall f : filters,
    bind_where (fst (build_where f [])) (snd (build_where f []))
    = Ok (top_conds_of f
          ++ (if exists_guard f then [Exists (plan_conds_of f)] else []), []).
Proof.
  intro f. unfold build_where, build_exists, exists_guard, top_conds_of,
    plan_conds_of, due_conds, like_pattern.
  rewrite !opt_str_truthy_get, opt_int_truthy_get.
  destruct (get_str (f_status f)), (get_str (f_site_type f)), (get_str (f_q f)),
           (get_int (f_category_id f)), (get_str (f_priority f)),
           (get_str (f_due_window f));
    cbn [orb opt_list app fst snd];
    destruct (String.eqb (get_due_window (f_due_window f)) "overdue");
    [reflexivity|..];
    destruct (String.eqb (get_due_window (f_due_window f)) "soon");
    [reflexivity|..];
    destruct (String.eqb (get_due_window (f_due_window f)) "quarter");
    reflexivity.
Qed.

Lemma tri_and_true :
  forall a b : tri, tri_and a b = Some true <-> a = Some true /\ b = Some true.
Proof.
  intros [[|]|] [[|]|]; simpl; split; intro H;
    try discriminate H; try (destruct H; discriminate);
    try (split; reflexivity); reflexivity.
Qed.

Lemma tri_or_true :
  forall a b : tri, tri_or a b = Some true <-> a = Some true \/ b = Some true.
Proof.
  intros [[|]|] [[|]|]; simpl; split; intro H;
    try discriminate H; try (destruct H; discriminate);
    try (left; reflexivity); try (right; reflexivity); reflexivity.
Qed.

Lemma sql_eq_int_one :
  forall v, sql_eq v (VInt 1) = Some true <-> v = VInt 1.
Proof.
  intros [|z|s]; unfold sql_eq, sql_compare, option_map; split; intro H;
    try discriminate H.
  - destruct (Z.compare_spec z 1); try discriminate H. subst z. reflexivity.
  - injection H as H. subst z. reflexivity.
Qed.

Lemma in_force_spec :
  forall clk ap, is_true (in_force clk ap) = true <-> in_force_row clk ap.
Proof.
  intros clk ap. unfold in_force, in_force_row.
  rewrite is_true_iff, tri_and_true, sql_eq_int_one, tri_or_true.
  split; intros [Ha Hs]; (split; [exact Ha|]);
    (destruct Hs as [Hs|Hs]; [left|right; exact Hs]).
  - destruct (suspended_until ap); [reflexivity|discriminate Hs..].
  - rewrite Hs. reflexivity.
Qed.

Lemma view_active_ppm_spec :
  forall clk d ap,
    In ap (view_active_ppm clk d) <-> In ap (ppm_plan d) /\ in_force_row clk ap.
Proof.
  intros clk d ap. unfold view_active_ppm.
  rewrite filter_In, in_force_spec. reflexivity.
Qed.

Lemma due_conds_spec :
  forall clk dw ap,
    forallb (fun c => is_true (eval_plan_cond clk ap c)) (due_conds dw) = true
    <-> due_window_holds clk dw ap.
Proof.
  intros clk dw ap. unfold due_conds, due_window_holds.
  destruct (String.eqb_spec dw "overdue") as [E1|N1];
    [|destruct (String.eqb_spec dw "soon") as [E2|N2];
      [|destruct (String.eqb_spec dw "quarter") as [E3|N3]]];
    try subst dw; cbn [forallb eval_plan_cond]; rewrite ?andb_true_r.
  - rewrite is_true_iff, tri_and_true. split.
    + intros [Hn Hl]. split; [|split]; intro E; try discriminate E.
      split; [|exact Hl]. intro Hnull. rewrite Hnull in Hn. discriminate Hn.
    + intros [H _]. destruct (H eq_refl) as [Hn Hl]. split; [|exact Hl].
      destruct (next_due_date ap); [contradiction Hn; reflexivity|reflexivity..].
  - unfold sql_between. rewrite is_true_iff, tri_and_true. split.
    + intros H. split; [|split]; intro E; try discriminate E. exact H.
    + intros [_ [H _]]. exact (H eq_refl).
  - unfold sql_between. rewrite is_true_iff, tri_and_true. split.
    + intros H. split; [|split]; intro E; try discriminate E. exact H.
    + intros [_ [_ H]]. exact (H eq_refl).
  - split; [|reflexivity]. intros _.
    split; [|split]; intro E; contradiction.
Qed.

Lemma plan_conds_spec :
  forall clk f ap,
    forallb (fun c => is_true (eval_plan_cond clk ap c)) (plan_conds_of f) = true
    <-> plan_conditions clk f ap.
Proof.
  intros clk f ap. unfold plan_conds_of, plan_conditions.
  rewrite !forallb_app, !andb_true_iff, due_conds_spec.
  destruct (get_int (f_category_id f)) as [c|], (get_str (f_priority f)) as [p|];
    cbn [opt_list forallb eval_plan_cond]; rewrite ?andb_true_r, ?is_true_iff;
    split; intros (H1 & H2 & H3);
    (split; [|split; [|exact H3]]);
    try reflexivity;
    try (intros x Hx; first [discriminate Hx | injection Hx as Hx; subst x; assumption]);
    try (apply H1; reflexivity); try (apply H2; reflexivity).
Qed.

Lemma top_conds_spec :
  forall clk d f s,
    forallb (fun c => is_true (eval_site_cond clk d s c)) (top_conds_of f) = true
    <-> site_conditions f s.
Proof.
  intros clk d f s. unfold top_conds_of, site_conditions.
  rewrite !forallb_app, !andb_true_iff.
  destruct (get_str (f_status f)) as [st|], (get_str (f_site_type f)) as [ty|],
           (get_str (f_q f)) as [q|];
    cbn [opt_list forallb eval_site_cond]; rewrite ?andb_true_r, ?is_true_iff;
    split; intros (H1 & H2 & H3);
    (split; [|split]);
    try reflexivity;
    try (intros x Hx; first [discriminate Hx | injection Hx as Hx; subst x; assumption]);
    try (apply H1; reflexivity); try (apply H2; reflexivity);
    try (apply H3; reflexivity).
Qed.

Lemma bind_plan_extra :
  forall fs ps cs rest extra,
    bind_plan fs ps = Ok (cs, rest) ->
    bind_plan fs (ps ++ extra) = Ok (cs, rest ++ extra).
Proof.
  induction fs as [|f fs IH]; intros ps cs rest extra H.
  - simpl in H. injection H as Hc Hr. subst. reflexivity.
  - destruct f; cbn [bind_plan] in H |- *;
      try (destruct ps as [|v ps]; [discriminate H|]; cbn [app]);
      match type of H with
      | bind (bind_plan fs ?p) _ = _ =>
          destruct (bind_plan fs p) as [[cs' rest']|e] eqn:E;
          [|discriminate H];
          cbn [bind] in H; injection H as Hc Hr; subst;
          rewrite (IH _ _ _ extra E); reflexivity
      end.
Qed.

Lemma bind_where_extra :
  forall w ps cs rest extra,
    bind_where w ps = Ok (cs, rest) ->
    bind_where w (ps ++ extra) = Ok (cs, rest ++ extra).
Proof.
  induction w as [|f w IH]; intros ps cs rest extra H.
  - simpl in H. injection H as Hc Hr. subst. reflexivity.
  - destruct f as [ | | |body]; cbn [bind_where] in H |- *.
    + destruct ps as [|v ps]; [discriminate H|]. cbn [app].
      destruct (bind_where w ps) as [[cs' rest']|e] eqn:E; [|discriminate H].
      cbn [bind] in H. injection H as Hc Hr. subst.
      rewrite (IH _ _ _ extra E). reflexivity.
    + destruct ps as [|v ps]; [discriminate H|]. cbn [app].
      destruct (bind_where w ps) as [[cs' rest']|e] eqn:E; [|discriminate H].
      cbn [bind] in H. injection H as Hc Hr. subst.
      rewrite (IH _ _ _ extra E). reflexivity.
    + destruct ps as [|v1 [|v2 [|v3 ps]]]; try discriminate H. cbn [app].
      destruct (bind_where w ps) as [[cs' rest']|e] eqn:E; [|discriminate H].
      cbn [bind] in H. injection H as Hc Hr. subst.
      rewrite (IH _ _ _ extra E). reflexivity.
    + destruct (bind_plan body ps) as [[ex ps']|e] eqn:Ep.
      * assert (Hb : bind_plan body (ps ++ extra) = Ok (ex, ps' ++ extra))
          by (apply bind_plan_extra; exact Ep).
        destruct ps as [|v ps]; cbn [app] in Hb |- *; rewrite Hb;
          cbn [bind] in H |- *;
          (destruct (bind_where w ps') as [[cs' rest']|e] eqn:E;
           [|discriminate H]);
          cbn [bind] in H; injection H as Hc Hr; subst;
          rewrite (IH _ _ _ extra E); reflexivity.
      * destruct ps; cbn [bind] in H; discriminate H.
Qed.

Lemma in_insert_by_name :
  forall s x l, In s (insert_by_name x l) <-> s = x \/ In s l.
Proof.
  intros s x l. induction l as [|t l IH]; simpl.
  - split; intros [H|H]; auto.
  - destruct (order_le (name t) (name x)); simpl; rewrite ?IH;
      split; intro H; repeat destruct H as [H|H]; auto.
Qed.

(** ORDER BY reorders the rows without adding or dropping any. *)
Lemma in_order_by_name :
  forall s l, In s (order_by_name l) <-> In s l.
Proof.
  intros s l. unfold order_by_name.
  assert (G : forall acc, In s (fold_left (fun acc x => insert_by_name x acc) l acc)
                          <-> In s l \/ In s acc).
  { induction l as [|x l IH]; intro acc; simpl.
    - split; [intro H; right; exact H | intros [[]|H]; exact H].
    - rewrite IH, in_insert_by_name.
      split; intro H; repeat destruct H as [H|H]; auto. }
  rewrite G. simpl. split; [intros [H|[]]; exact H | intro H; left; exact H].
Qed.

(** Rows kept by the WHERE clause that [build_where] compiles. *)
Lemma where_rows_spec :
  forall clk d f s,
    In s (where_rows clk d
            (top_conds_of f
             ++ (if exists_guard f then [Exists (plan_conds_of f)] else [])))
    <-> In s (site d) /\ site_conditions f s
        /\ (exists_guard f = true ->
            exists ap, In ap (ppm_plan d) /\ in_force_row clk ap
                       /\ ppm_site_id ap = site_id s
                       /\ plan_conditions clk f ap).
Proof.
  intros clk d f s. unfold where_rows, eval_where.
  rewrite filter_In, is_true_conj_all. cbn [is_true andb].
  rewrite forallb_app, andb_true_iff, top_conds_spec.
  destruct (exists_guard f).
  - cbn [forallb eval_site_cond is_true]. rewrite andb_true_r.
    assert (E : existsb (fun ap => is_true (exists_row clk s (plan_conds_of f) ap))
                        (view_active_ppm clk d) = true
                <-> exists ap, In ap (ppm_plan d) /\ in_force_row clk ap
                               /\ ppm_site_id ap = site_id s
                               /\ plan_conditions clk f ap).
    { rewrite existsb_exists. split; intros [ap H]; exists ap.
      - destruct H as [Hin Hrow]. apply view_active_ppm_spec in Hin.
        unfold exists_row in Hrow. rewrite is_true_conj_all in Hrow.
        apply andb_true_iff in Hrow. destruct Hrow as [Hid Hcs].
        cbn [is_true] in Hid.
        destruct (String.eqb_spec (ppm_site_id ap) (site_id s)) as [Eid|]; [|discriminate Hid].
        apply plan_conds_spec in Hcs. tauto.
      - destruct H as (Hin & Hf & Hid & Hp). split.
        + apply view_active_ppm_spec. tauto.
        + unfold exists_row. rewrite is_true_conj_all. apply andb_true_iff.
          split; [cbn [is_true]; rewrite Hid, String.eqb_refl; reflexivity|].
          apply plan_conds_spec. exact Hp. }
    destruct (existsb _ (view_active_ppm clk d)) eqn:Hex.
    + split; intros (H1 & H2 & _); (split; [exact H1|split; [exact H2|]]).
      * intros _. apply E. reflexivity.
      * reflexivity.
    + split.
      * intros (_ & _ & H). discriminate H.
      * intros (_ & _ & H). apply E in H; [discriminate H|reflexivity].
  - cbn [forallb]. split; intros (H1 & H2 & _); (split; [exact H1|split; [exact H2|]]).
    + intro H. discriminate H.
    + reflexivity.
Qed.

(** The listing statement of [api_sites], for the filters [f] and a limit:
    the rows [build_where] selects, ordered by name and cut at the limit. *)
Lemma select_sites_built :
  forall clk d f n,
    select_sites clk d (fst (build_where f []))
                 (snd (build_where f []) ++ [VInt n])
    = Ok (sql_limit n
            (order_by_name
               (where_rows clk d
                  (top_conds_of f
                   ++ (if exists_guard f then [Exists (plan_conds_of f)]
                       else []))))).
Proof.
  intros clk d f n. unfold select_sites.
  rewrite (bind_where_extra _ _ [VInt n] (build_where_bound f)).
  reflexivity.
Qed.




Example high_overdue_listing :
  select_sites Sample.clk Sample.store
    (fst (build_where
            {| f_q := Some ""; f_status := Some ""; f_site_type := Some "";
               f_category_id := None; f_priority := Some "High";
               f_due_window := Some "overdue" |} []))
    (snd (build_where
            {| f_q := Some ""; f_status := Some ""; f_site_type := Some "";
               f_category_id := None; f_priority := Some "High";
               f_due_window := Some "overdue" |} []) ++ [VInt 50])
  = Ok [Sample.depot].
Proof. reflexivity. Qed.

(** Two filters met only by different plans of a site do not select it: the
    depot has a High plan and a category-5 plan, but no High category-5 one. *)
Example split_conditions_do_not_match :
  select_sites Sample.clk Sample.store
    (fst (build_where
            {| f_q := Some ""; f_status := Some ""; f_site_type := Some "";
               f_category_id := Some 5; f_priority := Some "High";
               f_due_window := Some "all" |} []))
    (snd (build_where
            {| f_q := Some ""; f_status := Some ""; f_site_type := Some "";
               f_category_id := Some 5; f_priority := Some "High";
               f_due_window := Some "all" |} []) ++ [VInt 50])
  = Ok [].
Proof. reflexivity. Qed.

(* ------------------------------------------------------------------ *)
(** ** The due window "all" *)

Lemma api_sites_guard :
  forall a : sites_query, exists_guard (filters_of a) = true.
Proof.
  intro a. unfold exists_guard, filters_of. cbn.
  destruct (arg_due_window a); cbn; apply orb_true_r.
Qed.

Lemma in_firstn :
  forall (A : Type) (n : nat) (l : list A) (x : A), In x (firstn n l) -> In x l.
Proof.
  intros A n. induction n as [|n IH]; intros [|a l] x H; simpl in H;
    try contradiction.
  destruct H as [H|H]; [left; exact H | right; apply IH; exact H].
Qed.

(** Whatever the request, every row of the export (and of the listing,
    which runs the same statement) is a site with a plan in force. *)
Lemma listed_sites_have_a_plan_in_force :
  forall clk d a rows s,
    api_export_sites_rows clk d a = Ok rows ->
    In s rows ->
    exists ap, In ap (ppm_plan d) /\ in_force_row clk ap
               /\ ppm_site_id ap = site_id s.
Proof.
  intros clk d a rows s Hrows Hin.
  unfold api_export_sites_rows in Hrows.
  pose proof (select_sites_built clk d (filters_of a) (arg_limit a)) as Hsel.
  destruct (build_where (filters_of a) []) as [w params].
  cbn [fst snd] in Hsel. rewrite Hsel in Hrows. injection Hrows as Hrows.
  subst rows.
  assert (Hin' : In s (order_by_name
                         (where_rows clk d
                            (top_conds_of (filters_of a)
                             ++ (if exists_guard (filters_of a)
                                 then [Exists (plan_conds_of (filters_of a))]
                                 else []))))).
  { unfold sql_limit in Hin. destruct (arg_limit a <? 0); [exact Hin|].
    eapply in_firstn. exact Hin. }
  rewrite in_order_by_name, where_rows_spec in Hin'.
  destruct Hin' as (_ & _ & H).
  destruct (H (api_sites_guard a)) as (ap & H1 & H2 & H3 & _).
  exists ap. auto.
Qed.

(** The clause compiled for a request without parameters. *)
Example all_window_sql :
  where_sql (fst (build_where (filters_of Sample.list_all) []))
  = " WHERE 1=1  AND  EXISTS (SELECT 1 FROM view_active_ppm ap WHERE ap.site_id=s.site_id  ) ".
Proof. reflexivity. Qed.

(** C1 on the sample store: the town hall has no plan in force and passes
    the (empty) site-level filters, the request leaves category and priority
    unset and has due_window "all"; the compiled clause still carries the
    EXISTS block and the listing returns the depot only. *)
Theorem all_window_requires_a_plan_in_force :
  active_of Sample.clk Sample.store Sample.town_hall = []
  /\ In Sample.town_hall (site Sample.store)
  /\ site_conditions (filters_of Sample.list_all) Sample.town_hall
  /\ build_where (filters_of Sample.list_all) [] = ([AndExists []], [])
  /\ exists rows,
       api_sites 739325 Sample.clk Sample.store Sample.list_all = Ok rows
       /\ map (fun r => site_id (sum_site r)) rows = ["S2"].
Proof.
  split; [reflexivity|]. split; [left; reflexivity|].
  split; [repeat split; intros v Hv; discriminate Hv|].
  split; [reflexivity|].
  eexists. split; [vm_compute; reflexivity | reflexivity].
Qed.

(* ------------------------------------------------------------------ *)
(** ** Further properties of the classifier *)

(** X1: with no overdue plan, a parsable due date and a clock for which
    [today + 30 days] is a date, the three labels partition the due dates:
    DUE exactly before today, DUE_SOON exactly from today to thirty days
    ahead, OK exactly beyond. *)
Theorem classify_partition :
  forall (today : date) (s : string) (nd : date),
    fromisoformat s = Ok nd ->
    1 <= today -> today + 30 <= MAXORDINAL ->
    (classify_site_status today (PStr s) false = Ok "DUE" <-> nd < today)
    /\ (classify_site_status today (PStr s) false = Ok "DUE_SOON"
        <-> today <= nd <= today + 30)
    /\ (classify_site_status today (PStr s) false = Ok "OK"
        <-> today + 30 < nd).
Proof.
  intros today s nd Hs Hlo Hhi.
  rewrite (classify_parsed _ Hs Hlo Hhi).
  destruct (Z.ltb_spec nd today) as [L|G];
    [|destruct (Z.leb_spec nd (today + 30)) as [L2|G2]];
    repeat split; intros; try lia; try congruence.
Qed.

Lemma classify_partition_witness :
  (classify_site_status 739325 (PStr "2025-04-01") false = Ok "DUE"
   <-> 739342 < 739325)
  /\ (classify_site_status 739325 (PStr "2025-04-01") false = Ok "DUE_SOON"
      <-> 739325 <= 739342 <= 739325 + 30)
  /\ (classify_site_status 739325 (PStr "2025-04-01") false = Ok "OK"
      <-> 739325 + 30 < 739342).
Proof.
  apply (@classify_partition 739325 "2025-04-01" 739342).
  - reflexivity.
  - lia.
  - unfold MAXORDINAL. lia.
Defined.



(* ------------------------------------------------------------------ *)
(** ** Further properties of build_where *)

(** X3: in the clause [build_where] compiles, the number of [?] in the SQL
    text is the number of parameters it appends, and the parameters already
    in the list are kept in front. *)
Theorem where_placeholders_match_params :
  forall (f : filters) (ps0 : list sqlval),
    exists new,
      snd (build_where f ps0) = ps0 ++ new
      /\ count_char "?" (where_sql (fst (build_where f ps0))) = List.length new.
Proof.
  intros f ps0. unfold build_where, build_exists.
  rewrite !opt_str_truthy_get, opt_int_truthy_get.
  destruct (get_str (f_status f)), (get_str (f_site_type f)), (get_str (f_q f)),
           (get_int (f_category_id f)), (get_str (f_priority f)),
           (get_str (f_due_window f));
    cbn [orb fst snd];
    destruct (String.eqb (get_due_window (f_due_window f)) "overdue");
    destruct (String.eqb (get_due_window (f_due_window f)) "soon");
    destruct (String.eqb (get_due_window (f_due_window f)) "quarter");
    cbn [fst snd]; rewrite <- ?app_assoc; cbn [app];
    first [ eexists; split; reflexivity
          | exists []; split; [symmetry; apply app_nil_r | reflexivity] ].
Qed.

(* ------------------------------------------------------------------ *)
(** ** Further properties of the plan update *)

Lemma Forall2_same :
  forall (A : Type) (R : A -> A -> Prop) (l : list A),
    (forall x, R x x) -> Forall2 R l l.
Proof.
  intros A R l H. induction l as [|x l IH]; constructor; auto.
Qed.


(** X4: whatever the body and whether it succeeds, a plan update leaves the
    site table, the number and order of plan rows, every row with another
    identifier, and in the target rows the identifier, site, category,
    priority, instruction and frequency as they were. *)
Theorem plan_update_frame :
  forall (clk : sql_clock) (d : db) (id : Z) (body : PpmUpdate.t),
    site (fst (api_update_ppm clk d id body)) = site d
    /\ Forall2 (fun p p' => same_fixed_columns p p'
                            /\ (ppm_plan_id p <> id -> p' = p))
               (ppm_plan d) (ppm_plan (fst (api_update_ppm clk d id body))).
Proof.
  intros clk d id body.
  body_cases body; (split; [reflexivity|]); simpl;
    first
      [ apply Forall2_same; intro r; unfold same_fixed_columns;
        repeat split; reflexivity
      | apply Forall2_map_self; intro r; unfold same_fixed_columns;
        destruct (Z.compare_spec (ppm_plan_id r) id) as [E|L|G]; simpl;
        repeat split; try reflexivity; intro N; try lia ].
Qed.



(** X6: a plan update is idempotent: sending the same body again, at the
    same store date, gives the same answer and leaves the store as the first
    update left it. *)
Theorem plan_update_idempotent :
  forall (clk : sql_clock) (d : db) (id : Z) (body : PpmUpdate.t),
    api_update_ppm clk (fst (api_update_ppm clk d id body)) id body
    = (fst (api_update_ppm clk d id body), snd (api_update_ppm clk d id body)).
Proof.
  intros clk d id body.
  body_cases body; simpl; try reflexivity;
    (unfold api_update_ppm; simpl; f_equal; f_equal;
     rewrite map_map; apply map_ext; intro r;
     destruct (ppm_plan_id r ?= id) eqn:E; simpl; rewrite ?E; reflexivity).
Qed.

Lemma isoformat_shaped :
  forall n : date, PpmUpdate.date_shaped (isoformat n) = true.
Proof.
  intro n. unfold isoformat. destruct (ord2ymd n) as [[y m] dd]. reflexivity.
Qed.

Lemma date_or_null_stored :
  forall s, PpmUpdate.date_shaped s = true ->
    date_or_null (sql_of_opt (or_none s)).
Proof.
  intros s H. unfold or_none. rewrite (date_shaped_truthy _ H). exact H.
Qed.

Lemma validate_date_shaped :
  forall field o s,
    PpmUpdate.validate_date field o = Ok (Some s) ->
    PpmUpdate.date_shaped s = true.
Proof.
  intros field o s H. unfold PpmUpdate.validate_date in H.
  destruct o as [v|]; [|discriminate H].
  unfold PpmUpdate.date_like in H. destruct v as [|t|z|b]; try discriminate H.
  destruct (negb (str_truthy t)); [discriminate H|].
  destruct (PpmUpdate.date_shaped t) eqn:E; [|discriminate H].
  injection H as H. subst t. exact E.
Qed.

(** The date members of a validated body. *)
Lemma validate_shaped :
  forall j body,
    PpmUpdate.validate j = Ok body ->
    forall k s,
      In k [c_finished_date; c_next_due_date; c_retired_at; c_suspended_until] ->
      getattr body k = Some s -> PpmUpdate.date_shaped s = true.
Proof.
  intros j body H k s Hk Hs. unfold PpmUpdate.validate in H.
  destruct (PpmUpdate.validate_date "finished_date" (j_finished_date j))
    as [fd|] eqn:E1; [|discriminate H].
  destruct (PpmUpdate.validate_date "next_due_date" (j_next_due_date j))
    as [nd|] eqn:E2; [|discriminate H].
  destruct (PpmUpdate.validate_date "retired_at" (j_retired_at j))
    as [ra|] eqn:E3; [|discriminate H].
  destruct (PpmUpdate.validate_date "suspended_until" (j_suspended_until j))
    as [su|] eqn:E4; [|discriminate H].
  cbn [bind] in H. injection H as H. subst body.
  destruct Hk as [Hk|[Hk|[Hk|[Hk|[]]]]]; subst k; cbn in Hs; subst;
    eapply validate_date_shaped; eassumption.
Qed.

(** X7: the update endpoint keeps the date columns well-shaped: if in
    every plan row [finished_date], [next_due_date], [retired_at] and
    [suspended_until] are NULL or ten-character texts with dashes at
    positions 4 and 7, they still are after any request, accepted or not. *)
Theorem plan_update_keeps_dates_shaped :
  forall (clk : sql_clock) (d : db) (id : Z) (j : ppm_update_json),
    Forall dates_ok (ppm_plan d) ->
    Forall dates_ok (ppm_plan (fst (patch_ppm clk d id j))).
Proof.
  intros clk d id j Hd. unfold patch_ppm.
  destruct (PpmUpdate.validate j) as [body|e] eqn:Hv; [|exact Hd].
  pose proof (validate_shaped _ Hv) as Hs.
  assert (Hnow : date_or_null (sql_date clk 0))
    by (unfold sql_date; apply isoformat_shaped).
  assert (H1 : forall s, getattr body c_finished_date = Some s ->
                         date_or_null (sql_of_opt (or_none s)))
    by (intros s E; apply date_or_null_stored, (Hs c_finished_date); [cbn; tauto|exact E]).
  assert (H2 : forall s, getattr body c_next_due_date = Some s ->
                         date_or_null (sql_of_opt (or_none s)))
    by (intros s E; apply date_or_null_stored, (Hs c_next_due_date); [cbn; tauto|exact E]).
  assert (H3 : forall s, getattr body c_suspended_until = Some s ->
                         date_or_null (sql_of_opt (or_none s)))
    by (intros s E; apply date_or_null_stored, (Hs c_suspended_until); [cbn; tauto|exact E]).
  assert (H4 : forall s, getattr body c_retired_at = Some s -> date_or_null (VText s))
    by (intros s E; apply (Hs c_retired_at); [cbn; tauto|exact E]).
  clear Hs Hv.
  body_cases body; cbn [getattr PpmUpdate.finished_date PpmUpdate.next_due_date
                        PpmUpdate.suspended_until PpmUpdate.retired_at] in *;
    simpl; try exact Hd;
    (apply Forall_map; eapply Forall_impl; [|exact Hd];
     intros r (R1 & R2 & R3 & R4);
     destruct (ppm_plan_id r ?= id); unfold dates_ok; simpl;
     repeat split;
     first [ assumption | exact I
           | apply H1; reflexivity | apply H2; reflexivity
           | apply H3; reflexivity | apply H4; reflexivity ]).
Qed.

Lemma plan_update_keeps_dates_shaped_witness :
  Forall dates_ok
    (ppm_plan (fst (patch_ppm Sample.clk Sample.store 9
                      {| j_finished_date := Some (PStr "2025-03-10");
                         j_next_due_date := Some (PStr "2026-03-10");
                         j_is_active := Some false;
                         j_retired_reason := None; j_retired_at := None;
                         j_suspended_until := Some (PStr "") |}))).
Proof.
  apply plan_update_keeps_dates_shaped.
  repeat constructor.
Defined.

(* ------------------------------------------------------------------ *)
(** ** Further properties of the site status update *)

(** X8: the status endpoint keeps the status column inside the five
    literals: if every site row has one of them, every site row still has
    one after any request, accepted or not. *)
Theorem site_update_keeps_status_valid :
  forall (clk : sql_clock) (d : db) (sid : string) (j : option pyval),
    Forall status_ok (site d) ->
    Forall status_ok (site (fst (patch_site clk d sid j))).
Proof.
  intros clk d sid j Hd. unfold patch_site, SiteUpdate.validate.
  destruct j as [[|st| |]|]; try exact Hd.
  destruct (existsb (String.eqb st) SiteUpdate.statuses) eqn:E; [|exact Hd].
  apply status_allowed in E.
  unfold api_update_site, update_site. cbn [SiteUpdate.status].
  destruct (Z.of_nat _ =? 0); [exact Hd|].
  cbn [fst site]. apply Forall_map. eapply Forall_impl; [|exact Hd].
  intros s Hs. destruct (String.eqb (site_id s) sid); [|exact Hs].
  exists st. split; [reflexivity | exact E].
Qed.

Lemma site_update_keeps_status_valid_witness :
  Forall status_ok
    (site (fst (patch_site Sample.clk Sample.store "S2" (Some (PStr "Suspended"))))).
Proof.
  apply site_update_keeps_status_valid.
  repeat constructor; exists "Active"; (split; [reflexivity | left; reflexivity]).
Defined.

(* ------------------------------------------------------------------ *)
(** ** Order, limit and counters of the listing and the export *)

Lemma sql_compare_antisym :
  forall a b c, sql_compare a b = Some c -> sql_compare b a = Some (CompOpp c).
Proof.
  intros [|x|s] [|y|t] c H; simpl in H |- *; try discriminate H;
    injection H as H; subst c; try reflexivity.
  - rewrite (Z.compare_antisym x y). reflexivity.
  - rewrite (String.compare_antisym t s). reflexivity.
Qed.

Lemma order_le_total :
  forall a b, order_le a b = false -> order_le b a = true.
Proof.
  intros a b H. destruct a as [|x|s]; [discriminate H|..];
    (destruct b as [|y|t]; [reflexivity|..]);
    unfold order_le, sql_le in H |- *;
    match type of H with
    | is_true (option_map _ (sql_compare ?u ?v)) = false =>
        destruct (sql_compare u v) as [c|] eqn:E; [|discriminate E];
        rewrite (sql_compare_antisym _ _ E);
        destruct c; simpl in H |- *; try discriminate H; reflexivity
    end.
Qed.







Lemma sorted_map :
  forall (A B : Type) (R : A -> A -> Prop) (g : B -> A) (l : list B),
    Sorted (fun x y => R (g x) (g y)) l -> Sorted R (map g l).
Proof.
  intros A B R g l H. induction H as [|x l Hs IH Hhd]; simpl; constructor.
  - exact IH.
  - destruct Hhd; simpl; constructor. assumption.
Qed.



Lemma map_result_Forall2 :
  forall (A B : Type) (f : A -> result B) (l : list A) (bs : list B),
    map_result f l = Ok bs -> Forall2 (fun x y => f x = Ok y) l bs.
Proof.
  intros A B f l. induction l as [|x l IH]; intros bs H; simpl in H.
  - injection H as H. subst bs. constructor.
  - destruct (f x) as [y|e] eqn:Ex; [|discriminate H]. cbn [bind] in H.
    destruct (map_result f l) as [ys|e] eqn:El; [|discriminate H].
    cbn [bind] in H. injection H as H. subst bs.
    constructor; [exact Ex | apply IH; reflexivity].
Qed.

(** X10: when the listing answers, the export of the same request holds
    the same sites in the same order, and every listing row shows the
    export's columns: the same earliest due date (empty as absent), the same
    overdue count (NULL as 0) and the same number of active plans. *)
Theorem listing_agrees_with_export :
  forall (today : date) (clk : sql_clock) (d : db) (a : sites_query)
         (rows : list site_summary),
    api_sites today clk d a = Ok rows ->
    exists ex,
      api_export_sites_csv clk d a = Ok (export_columns, ex)
      /\ Forall2 listed_as rows ex.
Proof.
  intros today clk d a rows H.
  unfold api_sites in H. unfold api_export_sites_csv.
  destruct (build_where (filters_of a) []) as [w params].
  destruct (select_sites clk d w (params ++ [VInt (arg_limit a)]))
    as [sites|e]; [|discriminate H].
  cbn [bind] in H |- *.
  exists (map (export_row_of clk d) sites).
  split; [destruct sites; reflexivity|].
  apply map_result_Forall2 in H.
  clear -H. induction H as [|s r sites rows Hs HF IH]; simpl; constructor.
  - unfold summarise in Hs.
    destruct (classify_site_status _ _ _); [|discriminate Hs].
    cbn [bind] in Hs. injection Hs as Hs. subst r.
    unfold listed_as, export_row_of. cbn.
    repeat split; reflexivity.
  - exact IH.
Qed.

(** The listing and the export of the sample store, without parameters. *)
Lemma listing_agrees_with_export_witness :
  exists ex,
    api_export_sites_csv Sample.clk Sample.store Sample.list_all
    = Ok (export_columns, ex)
    /\ Forall2 listed_as
         [{| sum_site := Sample.depot; min_next_due := PStr "2025-02-01";
             overdue_count := 1; active_ppm := 2; ui_status := "DUE" |}]
         ex.
Proof.
  apply (@listing_agrees_with_export 739325 Sample.clk Sample.store Sample.list_all).
  vm_compute. reflexivity.
Defined.

Lemma classify_labels :
  forall today m b u,
    classify_site_status today m b = Ok u -> In u ["DUE"; "DUE_SOON"; "OK"].
Proof.
  intros today m b u H. unfold classify_site_status in H.
  destruct b; [injection H as H; subst u; left; reflexivity|].
  destruct (negb (truthy m));
    [injection H as H; subst u; right; right; left; reflexivity|].
  destruct (match m with PStr s => fromisoformat s | _ => Raise TypeError end)
    as [nd|e]; [|discriminate H].
  cbn [bind] in H.
  destruct (nd <? today); [injection H as H; subst u; left; reflexivity|].
  destruct (date_add_days today 30) as [lim|e]; [|discriminate H].
  cbn [bind] in H.
  destruct (nd <=? lim); injection H as H; subst u;
    [right; left; reflexivity | right; right; left; reflexivity].
Qed.

(** X11: in every row of the listing, [active_ppm] is the number of plans
    in force of that site and [overdue_count] the number of those that are
    overdue, so [0 <= overdue_count <= active_ppm]; a positive overdue count
    gives the label DUE, and the label is always one of the three. *)
Theorem listing_counters :
  forall (today : date) (clk : sql_clock) (d : db) (a : sites_query)
         (rows : list site_summary),
    api_sites today clk d a = Ok rows ->
    Forall (fun r =>
              active_ppm r
              = Z.of_nat (List.length (active_of clk d (sum_site r)))
              /\ overdue_count r
                 = Z.of_nat (List.length (filter (overdue_row clk)
                                            (active_of clk d (sum_site r))))
              /\ 0 <= overdue_count r <= active_ppm r
              /\ (0 < overdue_count r -> ui_status r = "DUE")
              /\ In (ui_status r) ["DUE"; "DUE_SOON"; "OK"])
           rows.
Proof.
  intros today clk d a rows H.
  unfold api_sites in H.
  destruct (build_where (filters_of a) []) as [w params].
  destruct (select_sites clk d w (params ++ [VInt (arg_limit a)]))
    as [sites|e]; [|discriminate H].
  cbn [bind] in H. apply map_result_Forall2 in H.
  clear -H. induction H as [|s r sites rows Hs HF IH]; constructor; [|exact IH].
  unfold summarise in Hs.
  destruct (classify_site_status today _ _) as [u|e] eqn:Hc; [|discriminate Hs].
  cbn [bind] in Hs. injection Hs as Hs. subst r. cbn.
  assert (Hoc : int_or_zero (sql_sum_overdue clk (active_of clk d s))
                = Z.of_nat (List.length (filter (overdue_row clk) (active_of clk d s))))
    by (unfold sql_sum_overdue; destruct (active_of clk d s); reflexivity).
  rewrite Hoc in *.
  pose proof (filter_length_le (overdue_row clk) (active_of clk d s)) as Hle.
  split; [reflexivity|]. split; [reflexivity|]. split; [lia|].
  split.
  - intro Hpos. apply Z.ltb_lt in Hpos. rewrite Hpos in Hc.
    cbn in Hc. injection Hc as Hc. symmetry. exact Hc.
  - eapply classify_labels. exact Hc.
Qed.

Lemma listing_counters_witness :
  Forall (fun r =>
            active_ppm r
            = Z.of_nat (List.length (active_of Sample.clk Sample.store (sum_site r)))
            /\ overdue_count r
               = Z.of_nat (List.length (filter (overdue_row Sample.clk)
                              (active_of Sample.clk Sample.store (sum_site r))))
            /\ 0 <= overdue_count r <= active_ppm r
            /\ (0 < overdue_count r -> ui_status r = "DUE")
            /\ In (ui_status r) ["DUE"; "DUE_SOON"; "OK"])
         [{| sum_site := Sample.depot; min_next_due := PStr "2025-02-01";
             overdue_count := 1; active_ppm := 2; ui_status := "DUE" |}].
Proof.
  apply (@listing_counters 739325 Sample.clk Sample.store Sample.list_all).
  vm_compute. reflexivity.
Defined.

(* ------------------------------------------------------------------ *)
(** ** The counters of the summary *)

Lemma filter_all :
  forall (A : Type) (l : list A), filter (fun _ => true) l = l.
Proof. intros A l. induction l; simpl; congruence. Qed.

Lemma disjoint_filters_length :
  forall (A : Type) (f g : A -> bool) (l : list A),
    (forall x, f x = true -> g x = true -> False) ->
    (List.length (filter f l) + List.length (filter g l) <= List.length l)%nat.
Proof.
  intros A f g l H. induction l as [|x l IH]; simpl; [lia|].
  destruct (f x) eqn:Ef, (g x) eqn:Eg; simpl; try lia.
  exfalso. exact (H x Ef Eg).
Qed.

Lemma overdue_not_due_soon :
  forall clk p, overdue_row clk p = true -> due_soon_row clk p = true -> False.
Proof.
  intros clk p Ho Hs. unfold overdue_row, due_soon_row, sql_between in *.
  apply is_true_iff, tri_and_true in Ho. destruct Ho as [_ Ho].
  apply is_true_iff, tri_and_true in Hs. destruct Hs as [Hs _].
  unfold sql_lt, sql_le in *.
  destruct (sql_compare (next_due_date p) (sql_date clk 0)) as [c|] eqn:E;
    [|discriminate Ho].
  rewrite (sql_compare_antisym _ _ E) in Hs.
  destruct c; simpl in Ho, Hs; discriminate.
Qed.

(** X12: the counters of the summary are consistent: the active sites are
    among the sites; an active plan is never counted both as overdue and as
    due in the next thirty days; the non-compliant sites are at most the
    overdue plans and at most the sites; and the compliant and non-compliant
    sites always add up to the active sites. *)
Theorem summary_counters :
  forall (today : date) (clk : sql_clock) (d : db),
    0 <= active_sites (api_summary today clk d)
      <= total_sites (api_summary today clk d)
    /\ 0 <= overdue (api_summary today clk d)
    /\ 0 <= due_next_30 (api_summary today clk d)
    /\ overdue (api_summary today clk d) + due_next_30 (api_summary today clk d)
       <= total_ppm_active (api_summary today clk d)
    /\ 0 <= non_compliant_sites (api_summary today clk d)
         <= overdue (api_summary today clk d)
    /\ non_compliant_sites (api_summary today clk d)
       <= total_sites (api_summary today clk d)
    /\ compliant_sites (api_summary today clk d)
       + non_compliant_sites (api_summary today clk d)
       = active_sites (api_summary today clk d).
Proof.
  intros today clk d. unfold api_summary, sql_count. cbn.
  rewrite !filter_all.
  pose proof (filter_length_le
                (fun s => is_true (sql_eq (status s) (VText "Active"))) (site d)).
  pose proof (disjoint_filters_length (overdue_row clk) (due_soon_row clk)
                (view_active_ppm clk d) (@overdue_not_due_soon clk)).
  assert (Hids : incl (overdue_site_ids clk d)
                      (map ppm_site_id (filter (overdue_row clk) (view_active_ppm clk d)))).
  { intros x Hx. unfold overdue_site_ids in Hx. rewrite nodup_In in Hx.
    apply in_map_iff in Hx. destruct Hx as [[s p] [Hx Hsp]]. cbn in Hx. subst x.
    apply filter_In in Hsp. destruct Hsp as [Hj Ho]. cbn in Ho.
    unfold site_join_active in Hj. apply in_flat_map in Hj.
    destruct Hj as [s0 [_ Hj]]. apply in_map_iff in Hj.
    destruct Hj as [p0 [Heq Hp]]. injection Heq as Es Ep. subst s0 p0.
    apply filter_In in Hp. destruct Hp as [Hp Hid].
    apply String.eqb_eq in Hid. rewrite <- Hid.
    apply in_map. apply filter_In. split; assumption. }
  assert (Hsites : incl (overdue_site_ids clk d) (map site_id (site d))).
  { intros x Hx. unfold overdue_site_ids in Hx. rewrite nodup_In in Hx.
    apply in_map_iff in Hx. destruct Hx as [[s p] [Hx Hsp]]. cbn in Hx. subst x.
    apply filter_In in Hsp. destruct Hsp as [Hj _].
    unfold site_join_active in Hj. apply in_flat_map in Hj.
    destruct Hj as [s0 [Hs0 Hj]]. apply in_map_iff in Hj.
    destruct Hj as [p0 [Heq _]]. injection Heq as Es Ep. subst s0.
    apply in_map. exact Hs0. }
  assert (Hnd : NoDup (overdue_site_ids clk d)) by apply NoDup_nodup.
  pose proof (NoDup_incl_length Hnd Hids) as L1.
  pose proof (NoDup_incl_length Hnd Hsites) as L2.
  rewrite length_map in L1, L2.
  repeat split; lia.
Qed.

(* ------------------------------------------------------------------ *)
(** ** The plan listing of a site *)

Lemma in_insert_by_due :
  forall r x l, In r (insert_by_due x l) <-> r = x \/ In r l.
Proof.
  intros r x l. induction l as [|t l IH]; simpl.
  - split; intros [H|H]; auto.
  - destruct (order_le (due_key (plan t)) (due_key (plan x))); simpl;
      rewrite ?IH; split; intro H; repeat destruct H as [H|H]; auto.
Qed.

Lemma in_order_by_due :
  forall r l, In r (order_by_due l) <-> In r l.
Proof.
  intros r l. unfold order_by_due.
  assert (G : forall acc, In r (fold_left (fun acc x => insert_by_due x acc) l acc)
                          <-> In r l \/ In r acc).
  { induction l as [|x l IH]; intro acc; simpl.
    - split; [intro H; right; exact H | intros [[]|H]; exact H].
    - rewrite IH, in_insert_by_due.
      split; intro H; repeat destruct H as [H|H]; auto. }
  rewrite G. simpl. split; [intros [H|[]]; exact H | intro H; left; exact H].
Qed.

Lemma insert_by_due_sorted :
  forall x l, Sorted due_le l -> Sorted due_le (insert_by_due x l).
Proof.
  intros x l Hs. induction l as [|t l IH]; simpl.
  - repeat constructor.
  - apply Sorted_inv in Hs. destruct Hs as [Hs Hhd].
    destruct (order_le (due_key (plan t)) (due_key (plan x))) eqn:E.
    + constructor; [apply IH; exact Hs|].
      destruct l as [|u l]; simpl.
      * constructor. exact E.
      * destruct (order_le (due_key (plan u)) (due_key (plan x))); constructor;
          [apply HdRel_inv in Hhd; exact Hhd | exact E].
    + constructor; [constructor; assumption|].
      constructor. apply order_le_total. exact E.
Qed.

Lemma order_by_due_sorted : forall l, Sorted due_le (order_by_due l).
Proof.
  intro l. unfold order_by_due.
  assert (G : forall acc, Sorted due_le acc ->
                Sorted due_le (fold_left (fun acc x => insert_by_due x acc) l acc)).
  { induction l as [|x l IH]; intros acc Ha; simpl; [exact Ha|].
    apply IH, insert_by_due_sorted, Ha. }
  apply G. constructor.
Qed.

Lemma in_left_join_category :
  forall cats p r, In r (left_join_category cats p) -> plan r = p.
Proof.
  intros cats p r H. unfold left_join_category in H.
  destruct (filter _ cats) as [|c cs].
  - destruct H as [H|[]]. subst r. reflexivity.
  - apply in_map_iff in H. destruct H as [c0 [H _]]. subst r. reflexivity.
Qed.

Lemma left_join_category_keeps :
  forall cats p, exists r, In r (left_join_category cats p).
Proof.
  intros cats p. unfold left_join_category.
  destruct (filter _ cats) as [|c cs]; eexists; left; reflexivity.
Qed.

(** Plans shown by the listing, whatever their category. *)
Lemma api_ppm_by_site_plans :
  forall clk d cats sid inc p,
    (exists r, In r (api_ppm_by_site clk d cats sid inc) /\ plan r = p)
    <-> In p (ppm_plan d) /\ ppm_site_id p = sid
        /\ (inc = 0 -> in_force_row clk p).
Proof.
  intros clk d cats sid inc p. unfold api_ppm_by_site. split.
  - intros [r [Hr Hp]]. rewrite in_order_by_due in Hr.
    apply filter_In in Hr. destruct Hr as [Hr Hsid].
    apply String.eqb_eq in Hsid. apply in_flat_map in Hr.
    destruct Hr as [p0 [Hp0 Hj]]. apply in_left_join_category in Hj.
    rewrite Hp in Hj, Hsid. subst p0.
    destruct (Z.eqb_spec inc 0) as [E|N]; cbn [negb] in Hp0.
    + apply view_active_ppm_spec in Hp0. tauto.
    + split; [exact Hp0|]. split; [exact Hsid|]. intro E. contradiction.
  - intros (Hin & Hsid & Hforce).
    destruct (left_join_category_keeps cats p) as [r Hr].
    exists r. split; [|eapply in_left_join_category; exact Hr].
    rewrite in_order_by_due. apply filter_In. split.
    + apply in_flat_map. exists p. split; [|exact Hr].
      destruct (Z.eqb_spec inc 0) as [E|N]; cbn [negb]; [|exact Hin].
      apply view_active_ppm_spec. split; [exact Hin | exact (Hforce E)].
    + rewrite (in_left_join_category _ _ _ Hr). apply String.eqb_eq. exact Hsid.
Qed.

(** X13: the plan listing of a site shows exactly the plans of that site:
    with [include_inactive = 0] those in force, otherwise all of them,
    retired and suspended ones included; a plan without a matching category
    is still shown. The rows come in ascending order of the due date, a
    NULL due date counting as 9999-12-31. *)
Theorem plan_listing_contents :
  forall (clk : sql_clock) (d : db) (cats : list Category.t)
         (sid : string) (inc : Z),
    (forall p,
       (exists r, In r (api_ppm_by_site clk d cats sid inc) /\ plan r = p)
       <-> In p (ppm_plan d) /\ ppm_site_id p = sid
           /\ (inc = 0 -> in_force_row clk p))
    /\ Sorted due_le (api_ppm_by_site clk d cats sid inc).
Proof.
  intros clk d cats sid inc. split.
  - intro p. apply api_ppm_by_site_plans.
  - unfold api_ppm_by_site. apply order_by_due_sorted.
Qed.

Lemma plan_listing_contents_witness :
  (forall p,
     (exists r, In r (api_ppm_by_site Sample.clk Sample.store [] "S1" 0)
                /\ plan r = p)
     <-> In p (ppm_plan Sample.store) /\ ppm_site_id p = "S1"
         /\ (0 = 0 -> in_force_row Sample.clk p))
  /\ Sorted due_le (api_ppm_by_site Sample.clk Sample.store [] "S1" 0).
Proof.
  apply plan_listing_contents.
Defined.



(** X15: a deactivated plan leaves the default plan listing and stays in
    the inclusive one: after an update with [is_active = false], no row of
    the listing with [include_inactive = 0] has the plan's identifier, and
    the listing with [include_inactive] set shows a plan with that
    identifier of the site exactly when the store had one before. *)
Theorem deactivated_plan_is_hidden :
  forall (clk : sql_clock) (d : db) (cats : list Category.t) (id : Z)
         (body : PpmUpdate.t) (sid : string),
    PpmUpdate.is_active body = Some false ->
    (forall r,
       In r (api_ppm_by_site clk (fst (api_update_ppm clk d id body)) cats sid 0) ->
       ppm_plan_id (plan r) <> id)
    /\ ((exists r,
           In r (api_ppm_by_site clk (fst (api_update_ppm clk d id body)) cats sid 1)
           /\ ppm_plan_id (plan r) = id)
        <-> exists p, In p (ppm_plan d) /\ ppm_site_id p = sid
                      /\ ppm_plan_id p = id).
Proof.
  intros clk d cats id body sid Hact.
  assert (Hrows : Forall2 (fun p p' => ppm_plan_id p' = ppm_plan_id p
                                       /\ ppm_site_id p' = ppm_site_id p
                                       /\ (ppm_plan_id p = id -> is_active p' = VInt 0))
                          (ppm_plan d)
                          (ppm_plan (fst (api_update_ppm clk d id body)))).
  { body_cases body; simpl in Hact; try discriminate Hact; simpl;
      apply Forall2_map_self; intro r;
      destruct (Z.compare_spec (ppm_plan_id r) id) as [E|L|G]; simpl;
      repeat split; try reflexivity; intro N; lia. }
  set (d' := fst (api_update_ppm clk d id body)) in *. clearbody d'.
  split.
  - intros r Hr Hid.
    assert (Hp : exists r0, In r0 (api_ppm_by_site clk d' cats sid 0)
                            /\ plan r0 = plan r)
      by (exists r; split; [exact Hr | reflexivity]).
    apply api_ppm_by_site_plans in Hp. destruct Hp as (Hin & _ & Hforce).
    destruct (Hforce eq_refl) as [Hone _].
    clear -Hrows Hin Hid Hone.
    induction Hrows as [|p p' l l' (H1 & _ & H3) HF IH]; [destruct Hin|].
    destruct Hin as [Hin|Hin]; [|exact (IH Hin)].
    subst p'. rewrite H3 in Hone by congruence. discriminate Hone.
  - split.
    + intros [r [Hr Hid]].
      assert (Hp : exists r0, In r0 (api_ppm_by_site clk d' cats sid 1)
                              /\ plan r0 = plan r)
        by (exists r; split; [exact Hr | reflexivity]).
      apply api_ppm_by_site_plans in Hp. destruct Hp as (Hin & Hsid & _).
      clear -Hrows Hin Hid Hsid.
      induction Hrows as [|p p' l l' (H1 & H2 & _) HF IH]; [destruct Hin|].
      destruct Hin as [Hin|Hin].
      * subst p'. exists p. split; [left; reflexivity|]. split; congruence.
      * destruct (IH Hin) as [q (Hq & Hq1 & Hq2)].
        exists q. split; [right; exact Hq | split; assumption].
    + intros [p (Hin & Hsid & Hid)].
      assert (Hp' : exists p', In p' (ppm_plan d') /\ ppm_site_id p' = sid
                               /\ ppm_plan_id p' = id).
      { clear -Hrows Hin Hsid Hid.
        induction Hrows as [|q q' l l' (H1 & H2 & _) HF IH]; [destruct Hin|].
        destruct Hin as [Hin|Hin].
        - subst q. exists q'. split; [left; reflexivity|]. split; congruence.
        - destruct (IH Hin) as [x (Hx & Hx1 & Hx2)].
          exists x. split; [right; exact Hx | split; assumption]. }
      destruct Hp' as [p' (Hin' & Hsid' & Hid')].
      assert (Hp : exists r, In r (api_ppm_by_site clk d' cats sid 1) /\ plan r = p').
      { apply api_ppm_by_site_plans. split; [exact Hin'|]. split; [exact Hsid'|].
        intro E. discriminate E. }
      destruct Hp as [r [Hr Hpr]]. exists r. split; [exact Hr|].
      rewrite Hpr. exact Hid'.
Qed.

Lemma deactivated_plan_is_hidden_witness :
  (forall r,
     In r (api_ppm_by_site Sample.clk
             (fst (api_update_ppm Sample.clk Sample.store 8
                     {| PpmUpdate.finished_date := None;
                        PpmUpdate.next_due_date := None;
                        PpmUpdate.is_active := Some false;
                        PpmUpdate.retired_reason := None;
                        PpmUpdate.retired_at := None;
                        PpmUpdate.suspended_until := None |})) [] "S2" 0) ->
     ppm_plan_id (plan r) <> 8)
  /\ ((exists r,
         In r (api_ppm_by_site Sample.clk
                 (fst (api_update_ppm Sample.clk Sample.store 8
                         {| PpmUpdate.finished_date := None;
                            PpmUpdate.next_due_date := None;
                            PpmUpdate.is_active := Some false;
                            PpmUpdate.retired_reason := None;
                            PpmUpdate.retired_at := None;
                            PpmUpdate.suspended_until := None |})) [] "S2" 1)
         /\ ppm_plan_id (plan r) = 8)
      <-> exists p, In p (ppm_plan Sample.store) /\ ppm_site_id p = "S2"
                    /\ ppm_plan_id p = 8).
Proof.
  apply deactivated_plan_is_hidden. reflexivity.
Defined.

(* ------------------------------------------------------------------ *)
(** ** The free-text filter *)



Lemma like_match_percent :
  forall p s,
    like_match (String "%"%char p) s
    = like_match p s
      || match s with
         | EmptyString => false
         | String _ s' => like_match (String "%"%char p) s'
         end.
Proof. intros p [|c s]; reflexivity. Qed.


Lemma like_match_any : forall s, like_match "%" s = true.
Proof.
  induction s as [|c s IH]; [reflexivity|].
  rewrite like_match_percent. rewrite IH. apply orb_true_r.
Qed.





(** X17: in a search text the characters [%] and [_] are not searched for
    but act as LIKE wildcards: a search for [_] alone selects every site
    whose name is a non-empty text, whether or not it holds an underscore. *)
Theorem underscore_matches_any_character :
  forall (clk : sql_clock) (d : db) (s : site_row) (c : ascii) (n : string),
    name s = VText (String c n) ->
    eval_site_cond clk d s
      (Like3 (like_pattern "_") (like_pattern "_") (like_pattern "_"))
    = Some true.
Proof.
  intros clk d s c n Hn. cbn [eval_site_cond]. rewrite Hn.
  change (like_pattern "_") with (VText "%_%").
  change (sql_lower (VText (String c n)))
    with (VText (String (lower_char c) (lower n))).
  assert (H : sql_like (VText (String (lower_char c) (lower n))) (VText "%_%")
              = Some true).
  { unfold sql_like. cbn [sql_text]. f_equal.
    rewrite like_match_percent.
    replace (like_match "_%" (String (lower_char c) (lower n))) with true;
      [reflexivity|].
    symmetry. exact (like_match_any (lower n)). }
  rewrite H.
  destruct (sql_like (sql_lower (site_code s)) (VText "%_%")) as [[|]|],
           (sql_like (sql_lower (uprn s)) (VText "%_%")) as [[|]|];
    reflexivity.
Qed.

Lemma underscore_matches_any_character_witness :
  eval_site_cond Sample.clk Sample.store Sample.depot
    (Like3 (like_pattern "_") (like_pattern "_") (like_pattern "_"))
  = Some true.
Proof.
  apply (@underscore_matches_any_character Sample.clk Sample.store Sample.depot
           "D"%char "epot").
  reflexivity.
Defined.

(* ------------------------------------------------------------------ *)
(** ** Blank filters *)

Lemma lstrip_blank : forall s, all_space s = true -> lstrip s = "".
Proof.
  induction s as [|c s IH]; intro H; [reflexivity|].
  cbn [all_space] in H. apply andb_true_iff in H. destruct H as [Hc Hs].
  cbn [lstrip]. rewrite Hc. apply IH. exact Hs.
Qed.

Lemma or_empty_strip_blank :
  forall o, blank o = true -> or_empty_strip o = "".
Proof.
  intros [s|] H; unfold or_empty_strip; [|reflexivity].
  cbn [blank] in H. rewrite (lstrip_blank _ H). reflexivity.
Qed.

(** X18: a text parameter holding white space only is the same as a
    missing one: the listing of a request equals the listing of the request
    in which every blank [q], [status], [site_type] and [priority] is left
    out. *)
Theorem blank_filters_are_ignored :
  forall (today : date) (clk : sql_clock) (d : db) (a : sites_query),
    api_sites today clk d a
    = api_sites today clk d
        {| arg_q := unblank (arg_q a); arg_status := unblank (arg_status a);
           arg_site_type := unblank (arg_site_type a);
           arg_category_id := arg_category_id a;
           arg_priority := unblank (arg_priority a);
           arg_due_window := arg_due_window a; arg_limit := arg_limit a |}.
Proof.
  intros today clk d a.
  assert (H : forall o, or_empty_strip (unblank o) = or_empty_strip o).
  { intro o. unfold unblank. destruct (blank o) eqn:E; [|reflexivity].
    rewrite (or_empty_strip_blank _ E). reflexivity. }
  unfold api_sites, filters_of. cbn [arg_q arg_status arg_site_type
    arg_category_id arg_priority arg_due_window arg_limit].
  rewrite !H. reflexivity.
Qed.

(* ------------------------------------------------------------------ *)
(** ** The filter options *)













(** X20: the filter options cannot be answered when some plan row holds a
    non-zero integer as its priority: the stripping fails on it. *)
Theorem filter_options_integer_priority :
  forall (d : db) (types : list SiteType.t) (cats : list Category.t)
         (r : ppm_row) (z : Z),
    In r (ppm_plan d) -> priority r = VInt z -> z <> 0 ->
    api_filters d types cats = AttributeError.
Proof.
  intros d types cats r z Hr Hp Hz. unfold api_filters.
  assert (Hin : In (VInt z) (nodup sqlval_eq_dec (map priority (ppm_plan d))))
    by (rewrite nodup_In, <- Hp; apply in_map; exact Hr).
  assert (G : forall rows, In (VInt z) rows -> stripped_priorities rows = None).
  { induction rows as [|v rows IH]; intro H; [destruct H|].
    simpl. destruct H as [H|H].
    - subst v. cbn [or_empty_text].
      destruct (Z.eqb_spec z 0); [contradiction | reflexivity].
    - rewrite (IH H). destruct (or_empty_text v); reflexivity. }
  rewrite (G _ Hin). reflexivity.
Qed.


(** A plan whose priority was stored as the number 2. *)
Lemma filter_options_integer_priority_witness :
  api_filters
    {| site := [];
       ppm_plan :=
         [{| ppm_plan_id := 1; ppm_site_id := "S1"; category_id := VNull;
             priority := VInt 2; instruction := VNull;
             frequency_months := VNull; finished_date := VNull;
             next_due_date := VNull; is_active := VInt 1; retired_at := VNull;
             retired_reason := VNull; suspended_until := VNull |}] |}
    [] []
  = AttributeError.
Proof.
  eapply (@filter_options_integer_priority _ [] [] _ 2).
  - left. reflexivity.
  - reflexivity.
  - discriminate.
Defined.

(* ------------------------------------------------------------------ *)
(** ** Suspension *)

(** X21: suspending a plan until a date after the store's current date
    takes it out of the default plan listing: after an update whose
    [suspended_until] is a non-empty text that compares greater than
    [date('now')], no row of the listing with [include_inactive = 0] has the
    plan's identifier, whatever the rest of the body. *)
Theorem suspended_plan_is_hidden :
  forall (clk : sql_clock) (d : db) (cats : list Category.t) (id : Z)
         (body : PpmUpdate.t) (s sid : string),
    PpmUpdate.suspended_until body = Some s -> s <> "" ->
    sql_le (VText s) (sql_date clk 0) = Some false ->
    forall r,
      In r (api_ppm_by_site clk (fst (api_update_ppm clk d id body)) cats sid 0) ->
      ppm_plan_id (plan r) <> id.
Proof.
  intros clk d cats id body s sid Hsu Hne Hlate r Hr Hid.
  assert (Hrows : Forall2 (fun p p' => ppm_plan_id p' = ppm_plan_id p
                                       /\ (ppm_plan_id p = id ->
                                           suspended_until p' = VText s))
                          (ppm_plan d)
                          (ppm_plan (fst (api_update_ppm clk d id body)))).
  { body_cases body; cbn [PpmUpdate.suspended_until] in Hsu;
      try discriminate Hsu; injection Hsu as Hsu; subst su; simpl;
      apply Forall2_map_self; intro p;
      destruct (Z.compare_spec (ppm_plan_id p) id) as [E|L|G]; simpl;
      (split; [reflexivity|]); intro N; try lia;
      rewrite (or_none_nonempty Hne); reflexivity. }
  set (d' := fst (api_update_ppm clk d id body)) in *. clearbody d'.
  assert (Hp : exists r0, In r0 (api_ppm_by_site clk d' cats sid 0)
                          /\ plan r0 = plan r)
    by (exists r; split; [exact Hr | reflexivity]).
  apply api_ppm_by_site_plans in Hp. destruct Hp as (Hin & _ & Hforce).
  destruct (Hforce eq_refl) as [_ Hsusp].
  clear -Hrows Hin Hid Hsusp Hlate.
  induction Hrows as [|p p' l l' (H1 & H2) HF IH]; [destruct Hin|].
  destruct Hin as [Hin|Hin]; [|exact (IH Hin)].
  subst p'. rewrite H2 in Hsusp by congruence.
  destruct Hsusp as [K|K]; [discriminate K|].
  rewrite Hlate in K. discriminate K.
Qed.

(** Suspending the fire alarm plan until the end of 2025. *)
Lemma suspended_plan_is_hidden_witness :
  Forall (fun r => ppm_plan_id (plan r) <> 8)
    (api_ppm_by_site Sample.clk
       (fst (api_update_ppm Sample.clk Sample.store 8
               {| PpmUpdate.finished_date := None;
                  PpmUpdate.next_due_date := None;
                  PpmUpdate.is_active := None;
                  PpmUpdate.retired_reason := None;
                  PpmUpdate.retired_at := None;
                  PpmUpdate.suspended_until := Some "2025-12-31" |}))
       [] "S2" 0).
Proof.
  apply Forall_forall.
  apply (@suspended_plan_is_hidden Sample.clk Sample.store [] 8 _ "2025-12-31" "S2").
  - reflexivity.
  - discriminate.
  - reflexivity.
Defined.
